(** * element-compiler-python: a shallow embedding of [compile.py]

    The development follows the source file top to bottom: the helpers
    on Python strings that the program relies on, [js_str_esc],
    [html2js], [parse_properties] and [compile], then the properties
    proved about them.

    Modelling conventions.
    - A Python [str] is a [string]; one [ascii] stands for one code
      point in the range 0..255.  The character classes of the Python
      runtime ([str.isspace], the regular expression class for word
      characters) are written out for that range.
    - The program prints as it goes.  Printing and raising are modelled
      by a small state-and-error monad over a [world] that holds the
      text written to standard output so far, and the calls of [sassc]
      made so far.
    - The parse tree built by BeautifulSoup is an input of [compile]
      next to the source text; the [sassc] executable is an oracle. *)

From Stdlib Require Import Ascii String ZArith Lia.
From stdpp Require Import base list strings gmap sorting.

Local Open Scope stdpp_scope.

Set Warnings "-register-all".

(** ** Characters that the program names *)

Definition LF : ascii := "010"%char.
Definition CR : ascii := "013"%char.
Definition SQUOTE : ascii := "'"%char.
Definition DQUOTE : ascii := "034"%char.
Definition BACKSLASH : ascii := "\"%char.
Definition SPACE : ascii := " "%char.

(** One-character strings. *)
Definition chr (c : ascii) : string := String c EmptyString.

(** ** Python [str] primitives used by the program *)

Module Py.

(** [str.isspace] on one code point below 256: the characters that
    [str.strip] removes when called without argument. *)
Definition isspace (c : ascii) : bool :=
  let n := N_of_ascii c in
  ((9 <=? n) && (n <=? 13) || (28 <=? n) && (n <=? 32)
   || (n =? 133) || (n =? 160))%N.

Fixpoint lstrip (s : string) : string :=
  match s with
  | EmptyString => EmptyString
  | String c s' => if isspace c then lstrip s' else s
  end.

Fixpoint rstrip (s : string) : string :=
  match s with
  | EmptyString => EmptyString
  | String c s' =>
      match rstrip s' with
      | EmptyString => if isspace c then EmptyString else chr c
      | r => String c r
      end
  end.

(** [s.strip()] *)
Definition strip (s : string) : string := rstrip (lstrip s).

(** Iterating over a [str] yields its characters as one-character
    strings. *)
Fixpoint iter (s : string) : list string :=
  match s with
  | EmptyString => []
  | String c s' => chr c :: iter s'
  end.

(** [s.startswith(p)], returning the rest of [s] after [p]. *)
Fixpoint strip_prefix (p s : string) : option string :=
  match p, s with
  | EmptyString, _ => Some s
  | String a p', String b s' =>
      if Ascii.eqb a b then strip_prefix p' s' else None
  | String _ _, EmptyString => None
  end.

Definition startswith (p s : string) : bool :=
  match strip_prefix p s with Some _ => true | None => false end.

(** [s.split(sep, maxsplit)] for a non-empty separator, scanning left
    to right for non-overlapping occurrences.  [maxsplit = None] is
    Python's default of no limit.  The result is never empty; it is
    computed as its first piece and the list of the others.  [skip]
    counts the characters of a separator still to be dropped.  (An
    empty separator raises [ValueError] in Python; the program only
    passes the two literals below.) *)
Definition may_split (maxsplit : option nat) : bool :=
  match maxsplit with Some O => false | _ => true end.

Definition one_less (maxsplit : option nat) : option nat :=
  match maxsplit with Some n => Some (pred n) | None => None end.

Fixpoint split_go (sep : string) (maxsplit : option nat) (skip : nat)
    (s : string) : string * list string :=
  match s with
  | EmptyString => (EmptyString, [])
  | String c s' =>
      match skip with
      | S k => split_go sep maxsplit k s'
      | O =>
          if may_split maxsplit && startswith sep s then
            let '(p, ps) :=
              split_go sep (one_less maxsplit) (pred (String.length sep)) s' in
            (EmptyString, p :: ps)
          else
            let '(p, ps) := split_go sep maxsplit 0 s' in
            (String c p, ps)
      end
  end.

Definition split (sep : string) (maxsplit : option nat) (s : string)
    : list string :=
  let '(p, ps) := split_go sep maxsplit 0 s in p :: ps.

(** [sep.join(items)] with the empty separator. *)
Definition join (items : list string) : string :=
  foldr String.app EmptyString items.

End Py.

(** ** [js_str_esc] (compile.py, lines 93-121) *)

(** The body of the loop: what is appended to [res] for one item [c] of
    the iteration. *)
Definition esc_item (c : string) : string :=
  if String.eqb c (chr SQUOTE) then "\'"
  else if String.eqb c (chr LF) then "\n"
  else if String.eqb c (chr BACKSLASH) then "\\"
  else c.

(** The loop [for c in s: ...] over any iterable of strings.  The
    program calls [js_str_esc] on strings and, for multi-valued
    attributes, on lists of strings. *)
Definition js_str_esc_iter (items : list string) : string :=
  foldl (fun res c => res +:+ esc_item c) EmptyString items.

Definition js_str_esc (s : string) : string := js_str_esc_iter (Py.iter s).

(** ** [parse_properties] (compile.py, lines 169-194) *)

(** The regular expression of line 190, matched the way Python's
    backtracking engine does.  Each piece of the pattern has its own
    matcher; a lazy quantifier first tries what follows it and only then
    consumes one more character. *)
Module Re.

(** The class of word characters of a [str] pattern (alphanumeric or
    underscore), for code points below 256. *)
Definition is_word (c : ascii) : bool :=
  let n := N_of_ascii c in
  ((48 <=? n) && (n <=? 57) || (65 <=? n) && (n <=? 90) || (n =? 95)
   || (97 <=? n) && (n <=? 122)
   || (n =? 170) || (n =? 178) || (n =? 179) || (n =? 181)
   || (n =? 185) || (n =? 186) || (188 <=? n) && (n <=? 190)
   || (192 <=? n) && (n <=? 214) || (216 <=? n) && (n <=? 246)
   || (248 <=? n) && (n <=? 255))%N.

(** The dot: any character but a line feed. *)
Definition is_dot (c : ascii) : bool := negb (Ascii.eqb c LF).

(** The tail of the pattern, the closing [ -->] anchored at the end:
    the end of the text, or just before a final line feed. *)
Definition closer_at_end (s : string) : bool :=
  String.eqb s " -->" || String.eqb s (" -->" +:+ chr LF).

(** The second group, lazy, followed by the tail; returns group 2. *)
Fixpoint value_then_closer (s : string) : option string :=
  if closer_at_end s then Some EmptyString
  else
    match s with
    | EmptyString => None
    | String c s' =>
        if is_dot c then
          match value_then_closer s' with
          | Some v => Some (String c v)
          | None => None
          end
        else None
    end.

(** The space between the groups, then the rest. *)
Definition space_then_value (s : string) : option string :=
  match s with
  | String c s' => if Ascii.eqb c SPACE then value_then_closer s' else None
  | EmptyString => None
  end.

(** The first group, lazy, followed by the rest; returns groups 1
    and 2. *)
Fixpoint name_then_rest (s : string) : option (string * string) :=
  match space_then_value s with
  | Some v => Some (EmptyString, v)
  | None =>
      match s with
      | EmptyString => None
      | String c s' =>
          if is_word c then
            match name_then_rest s' with
            | Some (n, v) => Some (String c n, v)
            | None => None
            end
          else None
      end
  end.

(** [re.match] with the pattern of line 190: the opening [<!-- ] at
    the start of the line, then the groups.  [None] is no match,
    [Some (g1, g2)] the two groups. *)
Definition match_property (line : string) : option (string * string) :=
  match Py.strip_prefix "<!-- " line with
  | Some rest => name_then_rest rest
  | None => None
  end.

End Re.

Definition blank_line : string := String LF (chr LF).

(** The first element of a list that [Py.split] returned. *)
Definition item0 (pieces : list string) : string :=
  match pieces with
  | p :: _ => p
  | [] => EmptyString
  end.

(** The loop body of lines 190-192. *)
Definition add_property (properties : gmap string string) (line : string)
    : gmap string string :=
  match Re.match_property line with
  | Some (name, value) => <[name := value]> properties
  | None => properties
  end.

Definition parse_properties (src : string) : gmap string string :=
  foldl add_property ∅
    (Py.split (chr LF) None (item0 (Py.split blank_line (Some 2) src))).

(** ** The parse tree (the part of the BeautifulSoup interface that
    [compile] uses) *)

(** The value of an attribute: a string, or a list of strings for the
    attributes that the HTML tree builder treats as multi-valued
    ([class] among them). *)
Inductive attr_value : Type :=
  | AttrStr (s : string)
  | AttrList (l : list string).

(** A node of the tree: a string, or a tag with its attribute
    dictionary (its items in insertion order) and its contents. *)
Inductive node : Type :=
  | NavigableString (s : string)
  | Tag (name : string) (attrs : list (string * attr_value))
        (contents : list node).

Module Soup.

Definition attrs_of (t : node) : list (string * attr_value) :=
  match t with
  | Tag _ attrs _ => attrs
  | NavigableString _ => []
  end.

(** Iterating over a tag iterates over its contents. *)
Definition children (t : node) : list node :=
  match t with
  | Tag _ _ contents => contents
  | NavigableString _ => []
  end.

(** All nodes below [t], in document order. *)
Fixpoint descendants (t : node) : list node :=
  match t with
  | NavigableString _ => []
  | Tag _ _ contents =>
      (fix below (l : list node) : list node :=
         match l with
         | [] => []
         | c :: l' => c :: descendants c ++ below l'
         end) contents
  end.

(** Dictionary lookup in the attributes. *)
Fixpoint get (key : string) (attrs : list (string * attr_value))
    : option attr_value :=
  match attrs with
  | [] => None
  | (k, v) :: attrs' => if String.eqb k key then Some v else get key attrs'
  end.

(** An attribute filter [key=value] of [find_all]: a string value
    must be equal; a list value matches through one of its items or
    through the items joined by spaces. *)
Fixpoint join_spaces (l : list string) : string :=
  match l with
  | [] => EmptyString
  | [x] => x
  | x :: l' => x +:+ " " +:+ join_spaces l'
  end.

Definition value_matches (want : string) (v : attr_value) : bool :=
  match v with
  | AttrStr s => String.eqb s want
  | AttrList l =>
      existsb (String.eqb want) l || String.eqb (join_spaces l) want
  end.

Definition tag_matches (name : string) (filter : option (string * string))
    (t : node) : bool :=
  match t with
  | NavigableString _ => false
  | Tag n attrs _ =>
      String.eqb n name &&
      match filter with
      | None => true
      | Some (key, want) =>
          match get key attrs with
          | Some v => value_matches want v
          | None => false
          end
      end
  end.

(** [soup.find_all(name)] and [soup.find_all(name, key=want)]. *)
Definition find_all (name : string) (filter : option (string * string))
    (soup : node) : list node :=
  List.filter (tag_matches name filter) (descendants soup).

(** [soup.find(name, key=want)]: the first match, if any. *)
Definition find (name : string) (filter : option (string * string))
    (soup : node) : option node :=
  head (find_all name filter soup).

End Soup.

(** [soup.find_all("script", event=role)] *)
Definition scripts (role : string) (soup : node) : list node :=
  Soup.find_all "script" (Some ("event", role)) soup.

(** ** [json.dumps] on a list of strings (default options) *)

Module Json.

Definition hex_digit (n : N) : ascii :=
  if (n <? 10)%N then ascii_of_N (48 + n) else ascii_of_N (87 + n).

(** One character of a string, ASCII-only output: the short escapes,
    the printable characters as they are, anything else as a
    four-digit escape. *)
Definition encode_char (c : ascii) : string :=
  let n := N_of_ascii c in
  if Ascii.eqb c DQUOTE then String BACKSLASH (chr DQUOTE)
  else if Ascii.eqb c BACKSLASH then "\\"
  else if (n =? 8)%N then "\b"
  else if (n =? 12)%N then "\f"
  else if (n =? 10)%N then "\n"
  else if (n =? 13)%N then "\r"
  else if (n =? 9)%N then "\t"
  else if (32 <=? n)%N && (n <=? 126)%N then chr c
  else "\u00" +:+ String (hex_digit (n / 16)) (chr (hex_digit (n mod 16))).

Fixpoint encode_chars (s : string) : string :=
  match s with
  | EmptyString => EmptyString
  | String c s' => encode_char c +:+ encode_chars s'
  end.

Definition encode_str (s : string) : string :=
  chr DQUOTE +:+ encode_chars s +:+ chr DQUOTE.

Fixpoint join_items (l : list string) : string :=
  match l with
  | [] => EmptyString
  | [x] => x
  | x :: l' => x +:+ ", " +:+ join_items l'
  end.

Definition dumps (l : list string) : string :=
  "[" +:+ join_items (encode_str <$> l) +:+ "]".

End Json.

(** ** Printing and raising *)

Inductive exn : Type :=
  | AssertionError
  | IndexError
  | KeyError (key : string)
  | TypeError
  | OSError
  | UnicodeDecodeError.

(** What a run has done so far: the text written to standard output,
    and the arguments with which [sassc] has been called (kept for the
    statements about the style preprocessor; the program does not read
    it). *)
Record world : Type := World {
  stdout : string;
  sassc_calls : list string
}.

Definition M (A : Type) : Type := world -> (exn + A) * world.

Definition ret {A : Type} (a : A) : M A := fun w => (inr a, w).

Definition raise {A : Type} (e : exn) : M A := fun w => (inl e, w).

Definition bind {A B : Type} (m : M A) (k : A -> M B) : M B :=
  fun w =>
    match m w with
    | (inr a, w') => k a w'
    | (inl e, w') => (inl e, w')
    end.

Notation "x <- m ;; k" := (bind m (fun x => k))
  (at level 20, m at level 99, k at level 200, only parsing).
Notation "m ;; k" := (bind m (fun _ => k))
  (at level 100, k at level 200, only parsing, right associativity).

(** [for x in l: body] *)
Fixpoint for_ {A : Type} (l : list A) (body : A -> M unit) : M unit :=
  match l with
  | [] => ret tt
  | x :: l' => body x ;; for_ l' body
  end.

(** A loop that updates one local variable. *)
Fixpoint for_acc {A S : Type} (l : list A) (acc : S) (body : S -> A -> M S)
    : M S :=
  match l with
  | [] => ret acc
  | x :: l' => acc' <- body acc x ;; for_acc l' acc' body
  end.

(** [assert cond] *)
Definition assert_ (cond : bool) : M unit :=
  if cond then ret tt else raise AssertionError.

(** [l[0]] *)
Definition index0 {A : Type} (l : list A) : M A :=
  match l with
  | x :: _ => ret x
  | [] => raise IndexError
  end.

(** [d[key]] on a dictionary of strings. *)
Definition dict_item (d : gmap string string) (key : string) : M string :=
  match d !! key with
  | Some v => ret v
  | None => raise (KeyError key)
  end.

(** [tag[key]] *)
Definition tag_item (t : node) (key : string) : M attr_value :=
  match Soup.get key (Soup.attrs_of t) with
  | Some v => ret v
  | None => raise (KeyError key)
  end.

(** A value used where Python needs a [str] (an item of [join], an
    element of a set): a list raises [TypeError]. *)
Definition as_str (v : attr_value) : M string :=
  match v with
  | AttrStr s => ret s
  | AttrList _ => raise TypeError
  end.

(** [out] (compile.py, lines 124-126) *)
Definition out (t : list string) : M unit :=
  fun w =>
    (inr tt, {| stdout := stdout w +:+ Py.join t;
                sassc_calls := sassc_calls w |}).

(** ** [html2js] (compile.py, lines 129-166) *)

(** [js_str_esc(val)] on an attribute value: a string is iterated by
    character, a list by item. *)
Definition js_str_esc_value (val : attr_value) : string :=
  match val with
  | AttrStr s => js_str_esc s
  | AttrList l => js_str_esc_iter l
  end.

(** Lines 156-159, the body of the loop over the attributes; [val] is
    [tag[key]], the value stored under [key]. *)
Definition html2js_attr (item : string * attr_value) : M unit :=
  let '(key, val) := item in
  let key := if String.eqb key "class" then "classList" else key in
  out ["'" +:+ js_str_esc key +:+ "':'" +:+ js_str_esc_value val +:+ "',"].

Fixpoint html2js (tag : node) : M unit :=
  match tag with
  | NavigableString s => out [chr DQUOTE; js_str_esc s; chr DQUOTE]
  | Tag name attrs contents =>
      out ["$e('"] ;;
      out [js_str_esc name] ;;
      out ["',{"] ;;
      for_ attrs html2js_attr ;;
      out ["},["] ;;
      (fix each (l : list node) : M unit :=
         match l with
         | [] => ret tt
         | child :: l' => html2js child ;; out [","] ;; each l'
         end) contents ;;
      out ["])"]
  end.

(** ** The style preprocessor (compile.py, lines 39-90) *)

(** What [subprocess.run] returns when it returns: the exit status of
    the process, and its standard output decoded as UTF-8 ([None] when
    the bytes do not decode, which raises [UnicodeDecodeError]). *)
Record CompletedProcess : Type := {
  returncode : Z;
  stdout_decoded : option string
}.

Section Program.

(** [tag.decode_contents()], the markup below a tag as BeautifulSoup
    renders it. *)
Variable decode_contents : node -> string.

(** The value of [sassc_available()] when the module is loaded. *)
Variable sassc_available : bool.

(** Running [sassc -s -t compressed] on a style text: [None] when
    [subprocess.run] raises (the executable cannot be started). *)
Variable run_sassc : string -> option CompletedProcess.

Definition note_sassc_call (style : string) : M unit :=
  fun w =>
    (inr tt, {| stdout := stdout w;
                sassc_calls := sassc_calls w ++ [style] |}).

(** Lines 59-85.  The exit status of the process is not looked at. *)
Definition sassc_external (style : string) : M string :=
  note_sassc_call style ;;
  match run_sassc style with
  | None => raise OSError
  | Some res =>
      match stdout_decoded res with
      | None => raise UnicodeDecodeError
      | Some text => ret (Py.strip text)
      end
  end.

(** Line 90, the replacement when the executable is missing. *)
Definition sassc_fallback (x : string) : M string :=
  note_sassc_call x ;;
  ret (Py.strip x).

(** The binding of the name [sassc] once the module is loaded. *)
Definition sassc : string -> M string :=
  if sassc_available then sassc_external else sassc_fallback.

(** ** [compile] (compile.py, lines 197-289) *)

(** Truth of a string in a condition. *)
Definition nonempty (s : string) : bool :=
  match s with
  | EmptyString => false
  | String _ _ => true
  end.

(** Lines 217-220. *)
Definition gather_style (soup : node) : string :=
  foldl (fun style s => style +:+ Py.strip (decode_contents s))
    EmptyString (Soup.find_all "style" None soup).

(** Lines 222-225. *)
Definition gather_attributes (soup : node) : M (gset string) :=
  for_acc (scripts "attr" soup) (∅ : gset string)
    (fun attributes s =>
       v <- tag_item s "attr" ;;
       a <- as_str v ;;
       ret (attributes ∪ {[a]})).

(** [sorted(list(attributes))] *)
Definition sorted_attributes (attributes : gset string) : list string :=
  merge_sort String.le (elements attributes).

(** [out(s.decode_contents())] for each script of a role. *)
Definition out_bodies (role : string) (soup : node) : M unit :=
  for_ (scripts role soup) (fun s => out [decode_contents s]).

(** [soup] is the tree that line 209 builds from [src]; the statements
    below hold for any tree. *)
Definition compile (src : string) (soup : node) : M unit :=
  let properties := parse_properties src in
  let tpl := Soup.find_all "template" None soup in
  assert_ (Nat.eqb (length tpl) 1) ;;
  tpl <- index0 tpl ;;
  let style := gather_style soup in
  attributes <- gather_attributes soup ;;
  name <- dict_item properties "name" ;;
  out ["customElements.define('" +:+ name +:+ "',"] ;;
  out ["class extends HTMLElement{"] ;;
  out ["constructor(){"] ;;
  out ["super();"] ;;
  out ["this.shadow = this.attachShadow({'mode':'open'});"] ;;
  (if nonempty style then
     style <- sassc style ;;
     out ["this.shadow.append($e('style', {}, ['"] ;;
     out [js_str_esc style] ;;
     out ["']));"]
   else ret tt) ;;
  for_ (Soup.children tpl) (fun t =>
    out ["this.shadow.append("] ;;
    html2js t ;;
    out [");"]) ;;
  out_bodies "constructor" soup ;;
  out ["}"] ;;
  (if bool_decide (attributes ≠ ∅) then
     out ["static get observedAttributes(){return"] ;;
     out [Json.dumps (sorted_attributes attributes)] ;;
     out [";}"]
   else ret tt) ;;
  match Soup.find "script" (Some ("event", "connected")) soup with
  | Some _ =>
      out ["connectedCallback(){"] ;;
      out_bodies "connected" soup ;;
      out ["}"]
  | None => ret tt
  end ;;
  match Soup.find "script" (Some ("event", "disconnected")) soup with
  | Some _ =>
      out ["disconnectedCallback(){"] ;;
      out_bodies "disconnected" soup ;;
      out ["}"]
  | None => ret tt
  end ;;
  for_ (scripts "getter" soup) (fun getter =>
    v <- tag_item getter "name" ;;
    n <- as_str v ;;
    out ["get "; n; "(){"] ;;
    out [decode_contents getter] ;;
    out ["}"]) ;;
  for_ (scripts "setter" soup) (fun setter =>
    v <- tag_item setter "name" ;;
    n <- as_str v ;;
    out ["set "; n; "(value){"] ;;
    out [decode_contents setter] ;;
    out ["}"]) ;;
  (if bool_decide (attributes ≠ ∅) then
     out ["attributeChangedCallback(__attrName, oldValue, value){"] ;;
     for_ (scripts "attr" soup) (fun s =>
       v <- tag_item s "attr" ;;
       out ["if (__attrName === '"; js_str_esc_value v; "'){"] ;;
       out [decode_contents s] ;;
       out ["}"]) ;;
     out ["}"]
   else ret tt) ;;
  out ["});"].

(** *** The parts of [compile]

    The body of [compile] is one sequence of statements.  The parts
    below give names to stretches of it, so that statements about the
    output can refer to them; [compile_parts] shows that [compile] is
    these parts run one after the other. *)

(** Lines 234-238. *)
Definition emit_style (style : string) : M unit :=
  if nonempty style then
    style <- sassc style ;;
    out ["this.shadow.append($e('style', {}, ['"] ;;
    out [js_str_esc style] ;;
    out ["']));"]
  else ret tt.

(** Lines 240-243. *)
Definition emit_template (tpl : node) : M unit :=
  for_ (Soup.children tpl) (fun t =>
    out ["this.shadow.append("] ;;
    html2js t ;;
    out [");"]).

(** Lines 250-253. *)
Definition emit_observed (attributes : gset string) : M unit :=
  if bool_decide (attributes ≠ ∅) then
    out ["static get observedAttributes(){return"] ;;
    out [Json.dumps (sorted_attributes attributes)] ;;
    out [";}"]
  else ret tt.

(** Lines 255-289. *)
Definition emit_members (attributes : gset string) (soup : node) : M unit :=
  match Soup.find "script" (Some ("event", "connected")) soup with
  | Some _ =>
      out ["connectedCallback(){"] ;;
      out_bodies "connected" soup ;;
      out ["}"]
  | None => ret tt
  end ;;
  match Soup.find "script" (Some ("event", "disconnected")) soup with
  | Some _ =>
      out ["disconnectedCallback(){"] ;;
      out_bodies "disconnected" soup ;;
      out ["}"]
  | None => ret tt
  end ;;
  for_ (scripts "getter" soup) (fun getter =>
    v <- tag_item getter "name" ;;
    n <- as_str v ;;
    out ["get "; n; "(){"] ;;
    out [decode_contents getter] ;;
    out ["}"]) ;;
  for_ (scripts "setter" soup) (fun setter =>
    v <- tag_item setter "name" ;;
    n <- as_str v ;;
    out ["set "; n; "(value){"] ;;
    out [decode_contents setter] ;;
    out ["}"]) ;;
  (if bool_decide (attributes ≠ ∅) then
     out ["attributeChangedCallback(__attrName, oldValue, value){"] ;;
     for_ (scripts "attr" soup) (fun s =>
       v <- tag_item s "attr" ;;
       out ["if (__attrName === '"; js_str_esc_value v; "'){"] ;;
       out [decode_contents s] ;;
       out ["}"]) ;;
     out ["}"]
   else ret tt) ;;
  out ["});"].

(** Lines 227-232, once the name is known. *)
Definition emit_opening (name : string) : M unit :=
  out ["customElements.define('" +:+ name +:+ "',"] ;;
  out ["class extends HTMLElement{"] ;;
  out ["constructor(){"] ;;
  out ["super();"] ;;
  out ["this.shadow = this.attachShadow({'mode':'open'});"].

(** Everything from line 217 on, for the template that was found. *)
Definition compile_from (src : string) (soup tpl : node) : M unit :=
  attributes <- gather_attributes soup ;;
  name <- dict_item (parse_properties src) "name" ;;
  emit_opening name ;;
  emit_style (gather_style soup) ;;
  emit_template tpl ;;
  out_bodies "constructor" soup ;;
  out ["}"] ;;
  emit_observed attributes ;;
  emit_members attributes soup.

(** The set that [gather_attributes] returns, or what it raises; it
    does not depend on what was printed before. *)
Definition attributes_of (soup : node) : exn + gset string :=
  fst (gather_attributes soup (World EmptyString [])).

(** What [sassc] returns or raises on a style text; it does not
    depend on what was printed before. *)
Definition sassc_result (style : string) : exn + string :=
  fst (sassc style (World EmptyString [])).

End Program.

(** ** Vocabulary of the statements *)

(** The world after more text was printed, and after one more call of
    [sassc]. *)
Definition emit (w : world) (text : string) : world :=
  {| stdout := stdout w +:+ text; sassc_calls := sassc_calls w |}.

Definition called (w : world) (style : string) : world :=
  {| stdout := stdout w; sassc_calls := sassc_calls w ++ [style] |}.

(** The text that a computation prints when nothing was printed
    before. *)
Definition written {A : Type} (m : M A) : string :=
  stdout (snd (m (World EmptyString []))).

(** [m] always succeeds, and all it does is print [text]. *)
Definition writes (m : M unit) (text : string) : Prop :=
  forall w, m w = (inr tt, emit w text).

(** Errors of a lookup in a tag or a dictionary, or of a value of the
    wrong type. *)
Definition lookup_error (e : exn) : bool :=
  match e with
  | KeyError _ | TypeError => true
  | _ => false
  end.

(** [m] leaves the world as it is. *)
Definition silent {A : Type} (m : M A) : Prop :=
  exists r, forall w, m w = (r, w).

(** [m] only prints, and if it stops it stops on a [lookup_error]. *)
Definition printer {A : Type} (m : M A) : Prop :=
  forall w, exists text,
    snd (m w) = emit w text /\
    match fst (m w) with
    | inl e => lookup_error e = true
    | inr _ => True
    end.

(** The concatenation of the texts [f x] for [x] in [l]. *)
Definition cat {A : Type} (f : A -> string) (l : list A) : string :=
  Py.join (f <$> l).

(** The text of one entry of the attribute object that [html2js]
    prints, for the key and value it is printed with. *)
Definition entry_text (key : string) (val : attr_value) : string :=
  "'" +:+ js_str_esc key +:+ "':'" +:+ js_str_esc_value val +:+ "',".

(** How an attribute of the tree and the entry printed for it are
    related: same value; the key [class] becomes [classList], any other
    key is kept; neither the key nor its escaped text is [class]. *)
Definition entry_of (item entry : string * attr_value) : Prop :=
  snd entry = snd item /\
  (fst item = "class" -> fst entry = "classList") /\
  (fst item <> "class" -> fst entry = fst item) /\
  fst entry <> "class" /\
  js_str_esc (fst entry) <> "class".

(** The texts that the parts of [compile] print. *)
Definition opening_text (name : string) : string :=
  ("customElements.define('" +:+ name +:+ "',") +:+
  "class extends HTMLElement{" +:+
  "constructor(){" +:+
  "super();" +:+
  "this.shadow = this.attachShadow({'mode':'open'});".

Definition style_text (css : string) : string :=
  "this.shadow.append($e('style', {}, ['" +:+ js_str_esc css +:+ "']));".

Definition template_text (tpl : node) : string :=
  cat (fun t => "this.shadow.append(" +:+ written (html2js t) +:+ ");")
    (Soup.children tpl).

Definition bodies_text (decode_contents : node -> string) (role : string)
    (soup : node) : string :=
  cat decode_contents (scripts role soup).

Definition observed_text (names : list string) : string :=
  "static get observedAttributes(){return" +:+ Json.dumps names +:+ ";}".

(** The observed-attributes accessor, printed only for a non-empty
    set. *)
Definition observed_part (attributes : gset string) : string :=
  if bool_decide (attributes ≠ ∅)
  then observed_text (sorted_attributes attributes)
  else EmptyString.

(** What is printed between the style construction and the other
    members of the class. *)
Definition constructor_rest (decode_contents : node -> string)
    (tpl soup : node) (attributes : gset string) : string :=
  template_text tpl +:+ bodies_text decode_contents "constructor" soup +:+
  "}" +:+ observed_part attributes.

(** A text starts, and ends, with a character that is not white
    space, or is empty. *)
Definition head_ok (s : string) : bool :=
  match s with
  | EmptyString => true
  | String c _ => negb (Py.isspace c)
  end.

Fixpoint last_ok (s : string) : bool :=
  match s with
  | EmptyString => true
  | String c EmptyString => negb (Py.isspace c)
  | String _ s' => last_ok s'
  end.

(** [sub] occurs in [s]. *)
Definition occurs (sub s : string) : Prop :=
  exists a b, s = a +:+ sub +:+ b.

(** [sub in s], decided from left to right. *)
Fixpoint contains (sub s : string) : bool :=
  Py.startswith sub s ||
  match s with
  | EmptyString => false
  | String _ s' => contains sub s'
  end.

(** Every character of [s] is white space. *)
Fixpoint all_space (s : string) : bool :=
  match s with
  | EmptyString => true
  | String c s' => Py.isspace c && all_space s'
  end.

(** [c] occurs in [s]. *)
Fixpoint has_char (c : ascii) (s : string) : bool :=
  match s with
  | EmptyString => false
  | String c' s' => Ascii.eqb c c' || has_char c s'
  end.

(** ** Reading a string literal of JavaScript

    The value of a single-quoted string literal as ECMAScript defines
    it (ECMA-262, String Literals), for source text and values within
    code points 0..255.  The emitted code is the body of a class, so it
    is strict mode code: octal escapes are errors.  [None] means that
    the text is not one well-formed literal with a value in that
    range. *)
Module JS.

(** The line terminators below 256. *)
Definition is_line_terminator (c : ascii) : bool :=
  Ascii.eqb c LF || Ascii.eqb c CR.

Definition is_decimal_digit (c : ascii) : bool :=
  let n := N_of_ascii c in ((48 <=? n) && (n <=? 57))%N.

Definition hex_value (c : ascii) : option N :=
  let n := N_of_ascii c in
  if ((48 <=? n) && (n <=? 57))%N then Some (n - 48)%N
  else if ((65 <=? n) && (n <=? 70))%N then Some (n - 55)%N
  else if ((97 <=? n) && (n <=? 102))%N then Some (n - 87)%N
  else None.

Definition hex2 (a b : ascii) : option ascii :=
  match hex_value a, hex_value b with
  | Some x, Some y => Some (ascii_of_N (16 * x + y))
  | _, _ => None
  end.

(** The character named by a one-character escape, if [e] is one. *)
Definition single_escape (e : ascii) : option ascii :=
  if Ascii.eqb e SQUOTE then Some SQUOTE
  else if Ascii.eqb e DQUOTE then Some DQUOTE
  else if Ascii.eqb e BACKSLASH then Some BACKSLASH
  else if Ascii.eqb e "b" then Some "008"%char
  else if Ascii.eqb e "f" then Some "012"%char
  else if Ascii.eqb e "n" then Some LF
  else if Ascii.eqb e "r" then Some CR
  else if Ascii.eqb e "t" then Some "009"%char
  else if Ascii.eqb e "v" then Some "011"%char
  else None.

Definition cons_value (c : ascii) (v : option string) : option string :=
  match v with
  | Some s => Some (String c s)
  | None => None
  end.

(** The characters of the literal after its opening quote, up to and
    including the closing quote, which must end the text. *)
Fixpoint single_quoted (body : string) : option string :=
  match body with
  | EmptyString => None
  | String c rest =>
      if Ascii.eqb c SQUOTE then
        match rest with
        | EmptyString => Some EmptyString
        | String _ _ => None
        end
      else if is_line_terminator c then None
      else if Ascii.eqb c BACKSLASH then
        match rest with
        | EmptyString => None
        | String e rest' =>
            if Ascii.eqb e LF then single_quoted rest'
            else if Ascii.eqb e CR then
              match rest' with
              | String l rest'' =>
                  if Ascii.eqb l LF then single_quoted rest''
                  else single_quoted rest'
              | EmptyString => single_quoted rest'
              end
            else
              match single_escape e with
              | Some v => cons_value v (single_quoted rest')
              | None =>
                  if Ascii.eqb e "0" then
                    match rest' with
                    | String d _ =>
                        if is_decimal_digit d then None
                        else cons_value "000"%char (single_quoted rest')
                    | EmptyString =>
                        cons_value "000"%char (single_quoted rest')
                    end
                  else if is_decimal_digit e then None
                  else if Ascii.eqb e "x" then
                    match rest' with
                    | String a (String b rest'') =>
                        match hex2 a b with
                        | Some v => cons_value v (single_quoted rest'')
                        | None => None
                        end
                    | _ => None
                    end
                  else if Ascii.eqb e "u" then
                    match rest' with
                    | String a (String b (String a' (String b' rest''))) =>
                        match hex2 a b, hex2 a' b' with
                        | Some hi, Some v =>
                            if Ascii.eqb hi "000" then
                              cons_value v (single_quoted rest'')
                            else None
                        | _, _ => None
                        end
                    | _ => None
                    end
                  else cons_value e (single_quoted rest')
              end
        end
      else cons_value c (single_quoted rest)
  end.

(** The value of the literal [lit], opening quote included. *)
Definition string_literal_value (lit : string) : option string :=
  match lit with
  | String q body => if Ascii.eqb q SQUOTE then single_quoted body else None
  | EmptyString => None
  end.

End JS.

(** The literal in which the program places an escaped text. *)
Definition quoted (escaped : string) : string :=
  chr SQUOTE +:+ escaped +:+ chr SQUOTE.

(** ** The module level (compile.py, lines 39-56, 88-90, 292-304) *)

Module Main.

Section Script.

(** [tag.decode_contents()] *)
Variable decode_contents : node -> string.

(** [BeautifulSoup(src, "html.parser")], line 209. *)
Variable BeautifulSoup : string -> node.

(** What [subprocess.run(["sassc", "-h"])] does when the module is
    loaded: [None] when it raises. *)
Variable probe : option CompletedProcess.

(** Running [sassc -s -t compressed] on a style text. *)
Variable run_sassc : string -> option CompletedProcess.

(** [open(p).read()]: the text of the file, or the error raised. *)
Variable read_file : string -> exn + string.

(** Lines 39-56: the exit status is compared with zero; the bare
    [except] turns any error into [False]. *)
Definition sassc_available : bool :=
  match probe with
  | Some res => Z.eqb (returncode res) 0
  | None => false
  end.

(** [compile(src)] as the script calls it: line 209 builds the tree,
    and [sassc] is bound as lines 88-90 left it. *)
Definition compile_text (src : string) : M unit :=
  compile decode_contents sassc_available run_sassc src (BeautifulSoup src).

(** The helper printed by lines 293-300. *)
Definition helper : string :=
  "let $e = (t,p={},c=[]) => {
  let el=document.createElement(t);
  Object.assign(el,p);
  el.append(...c);
  return el;
};".

Definition read (path : string) : M string :=
  match read_file path with
  | inr text => ret text
  | inl e => raise e
  end.

(** Lines 292-304; [argv] is [sys.argv]. *)
Definition main (argv : list string) : M unit :=
  out [helper] ;;
  for_ (drop 1 argv) (fun p =>
    text <- read p ;;
    compile_text text).

End Script.

End Main.

(** ** More vocabulary *)

(** The world after more text was printed and more calls of [sassc]
    were made. *)
Definition advance (w : world) (text : string) (calls : list string) : world :=
  {| stdout := stdout w +:+ text; sassc_calls := sassc_calls w ++ calls |}.

(** The outcome of a computation, and the calls of [sassc] it makes,
    when it starts from nothing. *)
Definition result_of {A : Type} (m : M A) : exn + A :=
  fst (m (World EmptyString [])).

Definition calls_of {A : Type} (m : M A) : list string :=
  sassc_calls (snd (m (World EmptyString []))).

(** [m] does the same whatever was printed or called before. *)
Definition uniform {A : Type} (m : M A) : Prop :=
  exists r text calls, forall w, m w = (r, advance w text calls).

(** Every character of [s] is a word character. *)
Fixpoint all_word (s : string) : bool :=
  match s with
  | EmptyString => true
  | String c s' => Re.is_word c && all_word s'
  end.

(** A comment line that declares the property [name] with [value]. *)
Definition comment_line (name value : string) : string :=
  "<!-- " +:+ name +:+ " " +:+ value +:+ " -->".

(** The string stored under [key] in a tag, when there is one. *)
Definition attr_string (key : string) (t : node) : string :=
  match Soup.get key (Soup.attrs_of t) with
  | Some (AttrStr s) => s
  | _ => EmptyString
  end.

Definition has_string (key : string) (t : node) : Prop :=
  exists s, Soup.get key (Soup.attrs_of t) = Some (AttrStr s).

(** The texts of the members that follow the constructor. *)
Definition hook_text (decode_contents : node -> string)
    (opening role : string) (soup : node) : string :=
  match scripts role soup with
  | [] => EmptyString
  | _ :: _ => opening +:+ bodies_text decode_contents role soup +:+ "}"
  end.

Definition getter_text (decode_contents : node -> string) (s : node)
    : string :=
  ("get " +:+ attr_string "name" s +:+ "(){") +:+ decode_contents s +:+ "}".

Definition setter_text (decode_contents : node -> string) (s : node)
    : string :=
  ("set " +:+ attr_string "name" s +:+ "(value){") +:+
  decode_contents s +:+ "}".

Definition branch_text (decode_contents : node -> string) (s : node)
    : string :=
  ("if (__attrName === '" +:+ js_str_esc (attr_string "attr" s) +:+ "'){")
  +:+ decode_contents s +:+ "}".

Definition callback_text (decode_contents : node -> string) (soup : node)
    : string :=
  match scripts "attr" soup with
  | [] => EmptyString
  | _ :: _ =>
      "attributeChangedCallback(__attrName, oldValue, value){" +:+
      cat (branch_text decode_contents) (scripts "attr" soup) +:+ "}"
  end.

(** Everything printed after the observed attributes. *)
Definition members_text (decode_contents : node -> string) (soup : node)
    : string :=
  hook_text decode_contents "connectedCallback(){" "connected" soup +:+
  hook_text decode_contents "disconnectedCallback(){" "disconnected" soup +:+
  cat (getter_text decode_contents) (scripts "getter" soup) +:+
  cat (setter_text decode_contents) (scripts "setter" soup) +:+
  callback_text decode_contents soup +:+
  "});".

(** Every character of [s] is a printable character of ASCII. *)
Fixpoint all_printable (s : string) : bool :=
  match s with
  | EmptyString => true
  | String c s' =>
      ((32 <=? N_of_ascii c) && (N_of_ascii c <=? 126))%N && all_printable s'
  end.

(** ** Sample documents *)

Module Sample.

(** A rendering of contents for tags that hold text only: the strings
    directly below the tag. *)
Definition text_contents (t : node) : string :=
  cat (fun c => match c with
                | NavigableString s => s
                | Tag _ _ _ => EmptyString
                end) (Soup.children t).

Definition src : string := "<!-- name my-widget -->".

Definition template : node := Tag "template" [] [Tag "span" [] []].

(** A document with one template and the given other elements. *)
Definition document (others : list node) : node :=
  Tag "[document]" [] (template :: others).

Definition two_styles : list node :=
  [Tag "style" [] [NavigableString "a{} "];
   Tag "style" [] [NavigableString " b{}"]].

Definition blank_styles : list node :=
  [Tag "style" [] [NavigableString "  "]; Tag "style" [] []].

Definition attr_script (name body : string) : node :=
  Tag "script" [("event", AttrStr "attr"); ("attr", AttrStr name)]
    [NavigableString body].

Definition attr_scripts : list node :=
  [attr_script "value" "a();"; attr_script "alpha" "b();";
   attr_script "value" "c();"].

(** The executable cannot be started. *)
Definition cannot_start (style : string) : option CompletedProcess := None.

(** The process exits with status 1 and prints nothing. *)
Definition exits_with_1 (style : string) : option CompletedProcess :=
  Some {| returncode := 1; stdout_decoded := Some EmptyString |}.

Definition start : world := World EmptyString [].

End Sample.

(** A sample command line: one file that exists, whose document has
    one template and nothing else. *)
Module SampleRun.

Definition parse (src : string) : node := Sample.document [].

Definition read_file (path : string) : exn + string :=
  if String.eqb path "a.html" then inr Sample.src else inl OSError.

(** A script of a role with no other attribute. *)
Definition bare_script (role : string) : node :=
  Tag "script" [("event", AttrStr role)] [NavigableString "x();"].

(** A getter script with its name. *)
Definition getter_script (name body : string) : node :=
  Tag "script" [("event", AttrStr "getter"); ("name", AttrStr name)]
    [NavigableString body].

End SampleRun.

(** * Properties *)

(** ** Strings *)

Lemma append_cons (c : ascii) (s t : string) :
  String c s +:+ t = String c (s +:+ t).
Proof. reflexivity. Qed.

Lemma append_nil_l (s : string) : EmptyString +:+ s = s.
Proof. reflexivity. Qed.

Lemma append_nil_r (s : string) : s +:+ EmptyString = s.
Proof. induction s as [|c s IH]; [reflexivity|]. by rewrite append_cons, IH. Qed.

Lemma append_assoc (s t u : string) : (s +:+ t) +:+ u = s +:+ t +:+ u.
Proof.
  induction s as [|c s IH]; [reflexivity|]. by rewrite !append_cons, IH.
Qed.



Lemma join_singleton (s : string) : Py.join [s] = s.
Proof. apply append_nil_r. Qed.

Lemma cat_cons {A : Type} (f : A -> string) (x : A) (l : list A) :
  cat f (x :: l) = f x +:+ cat f l.
Proof. reflexivity. Qed.

Lemma foldl_append {A : Type} (f : A -> string) (l : list A) (acc : string) :
  foldl (fun res x => res +:+ f x) acc l = acc +:+ cat f l.
Proof.
  revert acc. induction l as [|x l IH]; intros acc; simpl.
  - by rewrite append_nil_r.
  - by rewrite IH, cat_cons, append_assoc.
Qed.

(** ** The string escaper *)

Lemma js_str_esc_iter_cat (items : list string) :
  js_str_esc_iter items = cat esc_item items.
Proof. unfold js_str_esc_iter. by rewrite foldl_append. Qed.


Lemma js_str_esc_cons (c : ascii) (s : string) :
  js_str_esc (String c s) = esc_item (chr c) +:+ js_str_esc s.
Proof. unfold js_str_esc. by rewrite !js_str_esc_iter_cat. Qed.

(** The four cases of the loop body, by character. *)
Lemma esc_item_cases (c : ascii) :
  (c = SQUOTE /\ esc_item (chr c) = String BACKSLASH (chr SQUOTE)) \/
  (c = LF /\ esc_item (chr c) = String BACKSLASH (chr "n")) \/
  (c = BACKSLASH /\ esc_item (chr c) = String BACKSLASH (chr BACKSLASH)) \/
  (c <> SQUOTE /\ c <> LF /\ c <> BACKSLASH /\ esc_item (chr c) = chr c).
Proof.
  destruct (Ascii.eqb_spec c SQUOTE) as [->|H1]; [by left|].
  destruct (Ascii.eqb_spec c LF) as [->|H2]; [by right; left|].
  destruct (Ascii.eqb_spec c BACKSLASH) as [->|H3]; [by right; right; left|].
  right; right; right. repeat split; try done.
  unfold esc_item, chr. simpl.
  apply Ascii.eqb_neq in H1, H2, H3. by rewrite H1, H2, H3.
Qed.

(** Reading back the escaped form of a text without carriage return
    gives the text. *)
Lemma single_quoted_js_str_esc (t : string) :
  has_char CR t = false ->
  JS.single_quoted (js_str_esc t +:+ chr SQUOTE) = Some t.
Proof.
  induction t as [|c t IH]; [reflexivity|].
  cbn [has_char]. intros [Hc Ht]%orb_false_elim. specialize (IH Ht).
  rewrite js_str_esc_cons, append_assoc.
  destruct (esc_item_cases c) as [[-> ->]|[[-> ->]|[[-> ->]|(H1 & H2 & H3 & ->)]]].
  - unfold chr in *. rewrite !append_cons, append_nil_l. simpl. by rewrite IH.
  - unfold chr in *. rewrite !append_cons, append_nil_l. simpl. by rewrite IH.
  - unfold chr in *. rewrite !append_cons, append_nil_l. simpl. by rewrite IH.
  - unfold chr in *. rewrite append_cons, append_nil_l. cbn [JS.single_quoted].
    apply Ascii.eqb_neq in H1, H2, H3.
    rewrite H1, H3. unfold JS.is_line_terminator. rewrite H2.
    rewrite Ascii.eqb_sym in Hc. rewrite Hc. simpl. by rewrite IH.
Qed.

Lemma js_str_esc_roundtrip_without_cr (t : string) :
  has_char CR t = false ->
  JS.string_literal_value (quoted (js_str_esc t)) = Some t.
Proof.
  intros Ht. unfold quoted, chr. rewrite append_cons, append_nil_l. simpl.
  by apply single_quoted_js_str_esc.
Qed.

(** C2 (evaluated where it fails).  The escaper copies a carriage
    return unchanged, and a single-quoted literal of JavaScript may not
    contain one: the escaped form of the one-character text made of a
    carriage return does not read back as a string literal at all. *)
Theorem js_str_esc_carriage_return :
  js_str_esc (chr CR) = chr CR /\
  JS.string_literal_value (quoted (js_str_esc (chr CR))) = None.
Proof. split; reflexivity. Qed.

(** ** The metadata parser *)

Lemma strip_prefix_Some (p s r : string) :
  Py.strip_prefix p s = Some r -> s = p +:+ r.
Proof.
  revert s. induction p as [|a p IH]; intros s; simpl.
  - by intros [= ->].
  - destruct s as [|b s]; [done|].
    destruct (Ascii.eqb_spec a b) as [->|]; [|done].
    intros H%IH. by rewrite append_cons, H.
Qed.

Lemma strip_prefix_app (p r : string) : Py.strip_prefix p (p +:+ r) = Some r.
Proof.
  induction p as [|a p IH]; [reflexivity|].
  rewrite append_cons. simpl. by rewrite Ascii.eqb_refl.
Qed.

(** [contains] decides [occurs]. *)
Lemma contains_occurs (sub s : string) :
  contains sub s = true <-> occurs sub s.
Proof.
  split.
  - induction s as [|c s IH]; simpl.
    + rewrite orb_false_r. unfold Py.startswith.
      destruct (Py.strip_prefix sub EmptyString) as [r|] eqn:E; [|done].
      intros _. exists EmptyString, r. rewrite append_nil_l.
      by apply strip_prefix_Some.
    + intros [H|H]%orb_true_iff.
      * unfold Py.startswith in H.
        destruct (Py.strip_prefix sub (String c s)) as [r|] eqn:E; [|done].
        exists EmptyString, r. rewrite append_nil_l. by apply strip_prefix_Some.
      * destruct (IH H) as (a & b & ->). by exists (String c a), b.
  - intros (a & b & ->). induction a as [|c a IH].
    + rewrite append_nil_l.
      assert (Py.startswith sub (sub +:+ b) = true) as H
        by (unfold Py.startswith; by rewrite strip_prefix_app).
      destruct (sub +:+ b); cbn [contains]; by rewrite H.
    + rewrite append_cons. simpl. rewrite IH. apply orb_true_r.
Qed.

Lemma item0_split (sep : string) (n : option nat) (s : string) :
  item0 (Py.split sep n s) = fst (Py.split_go sep n 0 s).
Proof. unfold Py.split. by destruct (Py.split_go sep n 0 s). Qed.

Lemma split_go_first (sep : string) (n : option nat) (c : ascii) (s : string) :
  fst (Py.split_go sep n 0 (String c s)) =
  if Py.may_split n && Py.startswith sep (String c s) then EmptyString
  else String c (fst (Py.split_go sep n 0 s)).
Proof.
  simpl.
  destruct (Py.may_split n && Py.startswith sep (String c s)).
  - by destruct (Py.split_go sep (Py.one_less n) (pred (String.length sep)) s).
  - by destruct (Py.split_go sep n 0 s).
Qed.

(** The first piece of a split is the text before the first separator:
    the whole text when it contains none, ... *)
Lemma split_first_whole (sep : string) (n : option nat) (p : string) :
  contains sep p = false -> fst (Py.split_go sep n 0 p) = p.
Proof.
  induction p as [|c p IH]; [reflexivity|].
  cbn [contains]. intros [H1 H2]%orb_false_elim.
  rewrite split_go_first, H1, andb_false_r. by rewrite IH.
Qed.

Lemma contains_blank_line_cons (c : ascii) (s : string) :
  contains blank_line (String c s) = false ->
  Py.startswith blank_line (String c s) = false /\
  contains blank_line s = false.
Proof. cbn [contains]. by intros [H1 H2]%orb_false_elim. Qed.

(** ... and the text before the first blank line otherwise. *)
Lemma split_first_blank_line (n : option nat) (p rest : string) :
  Py.may_split n = true ->
  contains blank_line (p +:+ chr LF) = false ->
  fst (Py.split_go blank_line n 0 (p +:+ blank_line +:+ rest)) = p.
Proof.
  intros Hn. induction p as [|c p IH]; intros Hp.
  - rewrite append_nil_l. unfold blank_line, chr. rewrite append_cons.
    rewrite split_go_first, Hn. reflexivity.
  - rewrite append_cons in Hp |- *.
    apply contains_blank_line_cons in Hp as [H1 H2].
    rewrite split_go_first, (IH H2).
    replace (Py.startswith blank_line (String c (p +:+ blank_line +:+ rest)))
      with false; [by rewrite andb_false_r|].
    revert H1. unfold Py.startswith, blank_line, chr.
    cbn [Py.strip_prefix].
    destruct (Ascii.eqb LF c); [|done].
    destruct p as [|d p].
    + rewrite !append_nil_l. cbn [Py.strip_prefix]. by rewrite Ascii.eqb_refl.
    + rewrite !append_cons. cbn [Py.strip_prefix]. by destruct (Ascii.eqb LF d).
Qed.

(** C5.  When the first blank line of the text comes right after [p],
    the properties are those of the lines of [p]: whatever follows the
    blank line contributes nothing. *)
Theorem parse_properties_stops_at_blank_line (p rest : string) :
  contains blank_line (p +:+ chr LF) = false ->
  parse_properties (p +:+ blank_line +:+ rest) =
  foldl add_property ∅ (Py.split (chr LF) None p).
Proof.
  intros Hp. unfold parse_properties.
  by rewrite item0_split, split_first_blank_line.
Qed.

Lemma parse_properties_stops_at_blank_line_witness :
  parse_properties
    ("<!-- name my-widget -->" +:+ blank_line +:+ "<!-- name other -->") =
  foldl add_property ∅ (Py.split (chr LF) None "<!-- name my-widget -->").
Proof.
  apply (parse_properties_stops_at_blank_line "<!-- name my-widget -->").
  vm_compute. reflexivity.
Defined.

(** Every text with a blank line splits this way, at its first one. *)
Lemma first_blank_line (src : string) :
  contains blank_line src = true ->
  exists p rest,
    src = p +:+ blank_line +:+ rest /\
    contains blank_line (p +:+ chr LF) = false.
Proof.
  induction src as [|c src IH]; [done|].
  cbn [contains].
  destruct (Py.startswith blank_line (String c src)) eqn:Hs.
  - intros _. unfold Py.startswith in Hs.
    destruct (Py.strip_prefix blank_line (String c src)) as [rest|] eqn:E;
      [|done].
    exists EmptyString, rest. split; [|reflexivity].
    rewrite append_nil_l. by apply strip_prefix_Some.
  - rewrite orb_false_l. intros (p & rest & -> & Hp)%IH.
    exists (String c p), rest. split; [by rewrite append_cons|].
    rewrite append_cons. cbn [contains]. rewrite Hp, orb_false_r.
    revert Hs. unfold Py.startswith, blank_line, chr.
    cbn [Py.strip_prefix].
    destruct (Ascii.eqb LF c); [|done].
    destruct p as [|d p].
    + rewrite !append_nil_l, !append_cons. cbn [Py.strip_prefix].
      by rewrite Ascii.eqb_refl.
    + rewrite !append_cons. cbn [Py.strip_prefix].
      by destruct (Ascii.eqb LF d).
Qed.

(** A text without blank line is used whole. *)
Lemma parse_properties_no_blank_line (src : string) :
  contains blank_line src = false ->
  parse_properties src = foldl add_property ∅ (Py.split (chr LF) None src).
Proof.
  intros H. unfold parse_properties.
  by rewrite item0_split, split_first_whole.
Qed.

(** C9.  A comment line with two spaces after the opener matches the
    pattern with an empty first group, and the parser records the empty
    string as a property name. *)
Theorem parse_properties_empty_name :
  exists src value,
    Re.match_property src = Some (EmptyString, value) /\
    parse_properties src !! EmptyString = Some value.
Proof. exists "<!--  x -->", "x". split; vm_compute; reflexivity. Qed.

(** ** Running the printing monad *)

Lemma emit_nil (w : world) : emit w EmptyString = w.
Proof. destruct w. unfold emit. simpl. by rewrite append_nil_r. Qed.

Lemma emit_emit (w : world) (a b : string) :
  emit (emit w a) b = emit w (a +:+ b).
Proof. unfold emit. simpl. by rewrite append_assoc. Qed.



Lemma run_bind {A B : Type} (m : M A) (k : A -> M B) (w : world) :
  bind m k w =
  match m w with
  | (inr a, w') => k a w'
  | (inl e, w') => (inl e, w')
  end.
Proof. reflexivity. Qed.

Lemma run_out (t : list string) (w : world) :
  out t w = (inr tt, emit w (Py.join t)).
Proof. reflexivity. Qed.

Lemma writes_out (t : list string) : writes (out t) (Py.join t).
Proof. intros w. reflexivity. Qed.

Lemma writes_out1 (s : string) : writes (out [s]) s.
Proof. intros w. by rewrite run_out, join_singleton. Qed.

Lemma writes_ret : writes (ret tt) EmptyString.
Proof. intros w. by rewrite emit_nil. Qed.

Lemma writes_bind (m k : M unit) (a b : string) :
  writes m a -> writes k b -> writes (m ;; k) (a +:+ b).
Proof.
  intros Hm Hk w. by rewrite run_bind, Hm, Hk, emit_emit.
Qed.

Lemma writes_for_ {A : Type} (l : list A) (body : A -> M unit)
    (f : A -> string) :
  Forall (fun x => writes (body x) (f x)) l -> writes (for_ l body) (cat f l).
Proof.
  induction 1 as [|x l Hx Hl IH]; simpl.
  - apply writes_ret.
  - rewrite cat_cons. by apply writes_bind.
Qed.

Lemma writes_written (m : M unit) (text : string) :
  writes m text -> written m = text.
Proof. intros H. unfold written. by rewrite H. Qed.

Lemma writes_run (m : M unit) (text : string) (k : unit -> M unit)
    (w : world) :
  writes m text -> bind m k w = k tt (emit w text).
Proof. intros H. by rewrite run_bind, H. Qed.

(** ** The template tree compiler *)

(** Induction on a tree, with the property for all contents of a
    tag. *)
Lemma node_tree_ind (P : node -> Prop) :
  (forall s, P (NavigableString s)) ->
  (forall name attrs contents,
     Forall P contents -> P (Tag name attrs contents)) ->
  forall t, P t.
Proof.
  intros Hs Ht. fix IH 1. intros [s|name attrs contents]; [apply Hs|].
  apply Ht. induction contents as [|c l IHl]; constructor; [apply IH|apply IHl].
Qed.

Lemma html2js_attr_writes (item : string * attr_value) :
  exists key,
    writes (html2js_attr item) (entry_text key (snd item)) /\
    (fst item = "class" -> key = "classList") /\
    (fst item <> "class" -> key = fst item).
Proof.
  destruct item as [k v]. simpl.
  destruct (String.eqb_spec k "class") as [->|Hk].
  - exists "classList". split; [|done].
    intros w. unfold html2js_attr. simpl. rewrite run_out.
    by rewrite join_singleton.
  - exists k. split; [|done].
    intros w. rewrite run_out. by rewrite join_singleton.
Qed.

(** The loop over the contents of a tag. *)
Lemma html2js_each_writes (contents : list node) :
  Forall (fun c => writes (html2js c) (written (html2js c))) contents ->
  writes
    ((fix each (l : list node) : M unit :=
        match l with
        | [] => ret tt
        | child :: l' => html2js child ;; out [","] ;; each l'
        end) contents)
    (cat (fun c => written (html2js c) +:+ ",") contents).
Proof.
  induction 1 as [|c l Hc Hl IH].
  - apply writes_ret.
  - rewrite cat_cons, append_assoc.
    apply writes_bind; [done|]. by apply (writes_bind _ _ ","), IH.
Qed.

Lemma html2js_string_writes (s : string) :
  writes (html2js (NavigableString s))
    (chr DQUOTE +:+ js_str_esc s +:+ chr DQUOTE).
Proof.
  intros w. simpl. rewrite run_out. unfold Py.join. simpl.
  by rewrite append_nil_r.
Qed.

(** An escaped text without backslash is the text itself. *)
Lemma js_str_esc_plain (k : string) :
  has_char BACKSLASH (js_str_esc k) = false -> js_str_esc k = k.
Proof.
  induction k as [|c k IH]; [reflexivity|].
  rewrite js_str_esc_cons.
  destruct (esc_item_cases c) as [[-> ->]|[[-> ->]|[[-> ->]|(H1 & H2 & H3 & ->)]]];
    unfold chr; rewrite ?append_cons, ?append_nil_l; cbn [has_char];
    rewrite ?Ascii.eqb_refl; try done.
  intros [_ H]%orb_false_elim. by rewrite (IH H).
Qed.

Lemma js_str_esc_class (k : string) : js_str_esc k = "class" -> k = "class".
Proof.
  intros H. rewrite <- H. symmetry. apply js_str_esc_plain. by rewrite H.
Qed.

Lemma html2js_attrs_write (attrs : list (string * attr_value)) :
  exists entries,
    Forall2 entry_of attrs entries /\
    writes (for_ attrs html2js_attr)
      (cat (fun entry => entry_text (fst entry) (snd entry)) entries).
Proof.
  induction attrs as [|item attrs (entries & Hall & Hw)].
  - exists []. split; [constructor|apply writes_ret].
  - destruct (html2js_attr_writes item) as (key & Hkey & Hclass & Hother).
    exists ((key, snd item) :: entries). split.
    + constructor; [|done]. unfold entry_of. simpl.
      assert (key <> "class") as Hne.
      { destruct (decide (fst item = "class")) as [E|E].
        - by rewrite (Hclass E).
        - by rewrite (Hother E). }
      repeat split; try done.
      intros E%js_str_esc_class. done.
    + rewrite cat_cons. simpl. by apply writes_bind.
Qed.

Lemma html2js_tag_writes (name : string) (attrs : list (string * attr_value))
    (contents : list node) :
  Forall (fun c => writes (html2js c) (written (html2js c))) contents ->
  exists entries,
    Forall2 entry_of attrs entries /\
    writes (html2js (Tag name attrs contents))
      ("$e('" +:+ js_str_esc name +:+ "',{" +:+
       cat (fun entry => entry_text (fst entry) (snd entry)) entries +:+
       "},[" +:+
       cat (fun c => written (html2js c) +:+ ",") contents +:+
       "])").
Proof.
  intros Hc. destruct (html2js_attrs_write attrs) as (entries & Hall & Hw).
  exists entries. split; [done|].
  cbn [html2js].
  repeat (apply writes_bind;
          [first [apply writes_out1 | done | by apply html2js_each_writes]|]).
  apply writes_out1.
Qed.

(** [html2js] never raises, and prints the same text whatever was
    printed before. *)
Lemma html2js_writes (t : node) : writes (html2js t) (written (html2js t)).
Proof.
  induction t as [s|name attrs contents IH] using node_tree_ind.
  - rewrite (writes_written _ _ (html2js_string_writes s)).
    apply html2js_string_writes.
  - destruct (html2js_tag_writes name attrs contents IH) as (entries & _ & Hw).
    by rewrite (writes_written _ _ Hw).
Qed.

(** The text printed for an element is the call of the helper with the
    escaped tag name, one entry per attribute in their order, and the
    compiled contents.  Each entry carries the value of its attribute;
    its key is [classList] for the attribute [class] and the
    attribute's own key otherwise.  This is about the entries that
    [html2js] prints on purpose; what the text of a value can add to
    the object is the matter of [html2js_class_key_injected]. *)
Theorem html2js_class_key (name : string) (attrs : list (string * attr_value))
    (contents : list node) :
  exists entries,
    Forall2 entry_of attrs entries /\
    writes (html2js (Tag name attrs contents))
      ("$e('" +:+ js_str_esc name +:+ "',{" +:+
       cat (fun entry => entry_text (fst entry) (snd entry)) entries +:+
       "},[" +:+
       cat (fun c => written (html2js c) +:+ ",") contents +:+
       "])").
Proof.
  apply html2js_tag_writes, Forall_forall. intros c _. apply html2js_writes.
Qed.

(** ** Computations that do not print, and computations that only
    print *)

Lemma silent_ret {A : Type} (a : A) : silent (ret a).
Proof. by exists (inr a). Qed.

Lemma silent_raise {A : Type} (e : exn) : silent (raise e : M A).
Proof. by exists (inl e). Qed.

Lemma silent_bind {A B : Type} (m : M A) (k : A -> M B) :
  silent m -> (forall a, silent (k a)) -> silent (bind m k).
Proof.
  intros [[e|a] Hm] Hk.
  - exists (inl e). intros w. by rewrite run_bind, Hm.
  - destruct (Hk a) as [r Hr]. exists r. intros w. by rewrite run_bind, Hm, Hr.
Qed.

Lemma silent_for_acc {A S : Type} (l : list A) (body : S -> A -> M S) :
  (forall acc x, silent (body acc x)) -> forall acc, silent (for_acc l acc body).
Proof.
  intros Hb. induction l as [|x l IH]; intros acc; simpl.
  - apply silent_ret.
  - apply silent_bind; [apply Hb|apply IH].
Qed.

Lemma silent_tag_item (t : node) (key : string) : silent (tag_item t key).
Proof.
  unfold tag_item. destruct (Soup.get key (Soup.attrs_of t));
    [apply silent_ret|apply silent_raise].
Qed.

Lemma silent_as_str (v : attr_value) : silent (as_str v).
Proof. destruct v; [apply silent_ret|apply silent_raise]. Qed.

Lemma silent_run {A : Type} (m : M A) (w : world) :
  silent m -> m w = (fst (m (World EmptyString [])), w).
Proof. intros [r Hr]. by rewrite !Hr. Qed.

Lemma printer_writes (m : M unit) (text : string) : writes m text -> printer m.
Proof. intros H w. exists text. by rewrite H. Qed.

Lemma printer_ret {A : Type} (a : A) : printer (ret a).
Proof. intros w. exists EmptyString. by rewrite emit_nil. Qed.

Lemma printer_bind {A B : Type} (m : M A) (k : A -> M B) :
  printer m -> (forall a, printer (k a)) -> printer (bind m k).
Proof.
  intros Hm Hk w. rewrite run_bind.
  destruct (Hm w) as (t1 & Hw1 & He1).
  destruct (m w) as [[e|a] w1]; simpl in *; subst w1.
  - by exists t1.
  - destruct (Hk a (emit w t1)) as (t2 & Hw2 & He2).
    exists (t1 +:+ t2). by rewrite Hw2, emit_emit.
Qed.

Lemma printer_for_ {A : Type} (l : list A) (body : A -> M unit) :
  (forall x, printer (body x)) -> printer (for_ l body).
Proof.
  intros Hb. induction l as [|x l IH]; simpl.
  - apply printer_ret.
  - by apply printer_bind.
Qed.

Lemma printer_tag_item (t : node) (key : string) : printer (tag_item t key).
Proof.
  intros w. exists EmptyString. rewrite emit_nil. unfold tag_item.
  by destruct (Soup.get key (Soup.attrs_of t)).
Qed.

Lemma printer_as_str (v : attr_value) : printer (as_str v).
Proof. intros w. exists EmptyString. rewrite emit_nil. by destruct v. Qed.

Lemma printer_out (t : list string) : printer (out t).
Proof. apply (printer_writes _ _ (writes_out t)). Qed.

(** What a printer leaves behind. *)
Lemma printer_run {A : Type} (m : M A) (w : world) :
  printer m ->
  exists text,
    stdout (snd (m w)) = stdout w +:+ text /\
    sassc_calls (snd (m w)) = sassc_calls w /\
    fst (m w) <> inl AssertionError /\
    fst (m w) <> inl IndexError /\
    fst (m w) <> inl OSError /\
    fst (m w) <> inl UnicodeDecodeError.
Proof.
  intros H. destruct (H w) as (text & Hw & He). exists text.
  rewrite Hw. repeat split; try done;
    destruct (fst (m w)) as [[]|]; done.
Qed.

(** ** Trimming *)

Lemma lstrip_all_space (s : string) :
  all_space s = true -> Py.lstrip s = EmptyString.
Proof.
  induction s as [|c s IH]; [done|]. cbn [all_space Py.lstrip].
  intros [Hc Hs]%andb_true_iff. rewrite Hc. by apply IH.
Qed.

Lemma strip_all_space (s : string) :
  all_space s = true -> Py.strip s = EmptyString.
Proof. intros H. unfold Py.strip. by rewrite lstrip_all_space. Qed.

Lemma lstrip_head_ok (s : string) : head_ok s = true -> Py.lstrip s = s.
Proof.
  destruct s as [|c s]; [done|]. cbn [head_ok Py.lstrip].
  by intros ->%negb_true_iff.
Qed.

Lemma rstrip_last_ok (s : string) : last_ok s = true -> Py.rstrip s = s.
Proof.
  induction s as [|c s IH]; [done|]. cbn [Py.rstrip].
  destruct s as [|d s].
  - cbn [last_ok Py.rstrip]. by intros ->%negb_true_iff.
  - intros H. change (last_ok (String d s) = true) in H.
    by rewrite (IH H).
Qed.

Lemma head_ok_lstrip (s : string) : head_ok (Py.lstrip s) = true.
Proof.
  induction s as [|c s IH]; [done|]. cbn [Py.lstrip].
  destruct (Py.isspace c) eqn:E; [done|]. cbn [head_ok]. by rewrite E.
Qed.

Lemma last_ok_rstrip (s : string) : last_ok (Py.rstrip s) = true.
Proof.
  induction s as [|c s IH]; [done|]. cbn [Py.rstrip].
  destruct (Py.rstrip s) as [|d r].
  - destruct (Py.isspace c) eqn:E; [done|]. unfold chr. cbn [last_ok].
    by rewrite E.
  - done.
Qed.

Lemma head_ok_rstrip (s : string) :
  head_ok s = true -> head_ok (Py.rstrip s) = true.
Proof.
  destruct s as [|c s]; [done|]. cbn [head_ok Py.rstrip].
  intros H. destruct (Py.rstrip s).
  - destruct (Py.isspace c) eqn:E; [done|]. unfold chr. cbn [head_ok].
    by rewrite E.
  - done.
Qed.

Lemma head_ok_append (a b : string) :
  head_ok a = true -> head_ok b = true -> head_ok (a +:+ b) = true.
Proof. by destruct a. Qed.

Lemma last_ok_append (a b : string) :
  last_ok a = true -> last_ok b = true -> last_ok (a +:+ b) = true.
Proof.
  intros Ha Hb. induction a as [|c a IH]; [done|].
  rewrite append_cons. destruct a as [|d a].
  - rewrite append_nil_l. destruct b; done.
  - rewrite append_cons. rewrite append_cons in IH. by apply IH.
Qed.

(** A concatenation of trimmed texts is trimmed. *)
Lemma strip_cat_strip {A : Type} (f : A -> string) (l : list A) :
  Py.strip (cat (fun x => Py.strip (f x)) l) = cat (fun x => Py.strip (f x)) l.
Proof.
  assert (head_ok (cat (fun x => Py.strip (f x)) l) = true /\
          last_ok (cat (fun x => Py.strip (f x)) l) = true) as [H1 H2].
  { induction l as [|x l [IH1 IH2]]; [done|]. rewrite cat_cons. split.
    - apply head_ok_append; [|done]. apply head_ok_rstrip, head_ok_lstrip.
    - apply last_ok_append; [|done]. apply last_ok_rstrip. }
  unfold Py.strip at 1. by rewrite lstrip_head_ok, rstrip_last_ok.
Qed.

Lemma cat_all_empty {A : Type} (f : A -> string) (l : list A) :
  Forall (fun x => f x = EmptyString) l -> cat f l = EmptyString.
Proof.
  induction 1 as [|x l Hx Hl IH]; [done|]. by rewrite cat_cons, Hx, IH.
Qed.

(** ** The class assembler *)

Section CompileProperties.

Variable decode_contents : node -> string.
Variable sassc_available : bool.
Variable run_sassc : string -> option CompletedProcess.

Local Abbreviation compile := (compile decode_contents sassc_available run_sassc).
Local Abbreviation compile_from :=
  (compile_from decode_contents sassc_available run_sassc).
Local Abbreviation sassc := (sassc sassc_available run_sassc).
Local Abbreviation sassc_result := (sassc_result sassc_available run_sassc).
Local Abbreviation emit_style := (emit_style sassc_available run_sassc).
Local Abbreviation gather_style := (gather_style decode_contents).
Local Abbreviation out_bodies := (out_bodies decode_contents).
Local Abbreviation emit_members := (emit_members decode_contents).
Local Abbreviation bodies_text := (bodies_text decode_contents).

(** [compile] is its parts in sequence. *)
Lemma compile_parts (src : string) (soup : node) (w : world) :
  compile src soup w =
  (assert_ (Nat.eqb (length (Soup.find_all "template" None soup)) 1) ;;
   tpl <- index0 (Soup.find_all "template" None soup) ;;
   compile_from src soup tpl) w.
Proof.
  unfold compile, compile_from. rewrite !run_bind.
  destruct (assert_ _ w) as [[e|[]] w1]; [done|].
  rewrite !run_bind.
  destruct (index0 _ w1) as [[e|tpl] w2]; [done|].
  rewrite !run_bind.
  destruct (gather_attributes soup w2) as [[e|attributes] w3]; [done|].
  rewrite !run_bind.
  destruct (dict_item _ _ w3) as [[e|name] w4]; [done|].
  reflexivity.
Qed.

Lemma sassc_run (style : string) (w : world) :
  sassc style w = (sassc_result style, called w style).
Proof.
  unfold sassc_result, sassc.
  destruct sassc_available.
  - unfold sassc_external. rewrite !run_bind. simpl.
    destruct (run_sassc style) as [res|]; [|done].
    by destruct (stdout_decoded res).
  - reflexivity.
Qed.

Lemma gather_attributes_silent (soup : node) : silent (gather_attributes soup).
Proof.
  apply silent_for_acc. intros acc s.
  apply silent_bind; [apply silent_tag_item|]. intros v.
  apply silent_bind; [apply silent_as_str|]. intros a. apply silent_ret.
Qed.

Lemma gather_attributes_run (soup : node) (w : world) :
  gather_attributes soup w = (attributes_of soup, w).
Proof. apply silent_run, gather_attributes_silent. Qed.

Lemma gather_style_cat (soup : node) :
  gather_style soup =
  cat (fun s => Py.strip (decode_contents s)) (Soup.find_all "style" None soup).
Proof. unfold gather_style. by rewrite foldl_append. Qed.

Lemma emit_opening_writes (name : string) :
  writes (emit_opening name) (opening_text name).
Proof.
  unfold emit_opening, opening_text.
  repeat (apply writes_bind; [apply writes_out1|]). apply writes_out1.
Qed.

Lemma emit_template_writes (tpl : node) :
  writes (emit_template tpl) (template_text tpl).
Proof.
  apply writes_for_, Forall_forall. intros t _.
  apply writes_bind; [apply writes_out1|].
  apply writes_bind; [apply html2js_writes|apply writes_out1].
Qed.

Lemma out_bodies_writes (role : string) (soup : node) :
  writes (out_bodies role soup) (bodies_text role soup).
Proof.
  apply writes_for_, Forall_forall. intros s _. apply writes_out1.
Qed.

Lemma emit_observed_writes (attributes : gset string) :
  writes (emit_observed attributes) (observed_part attributes).
Proof.
  unfold emit_observed, observed_part.
  destruct (bool_decide (attributes ≠ ∅)).
  - unfold observed_text.
    repeat (apply writes_bind; [apply writes_out1|]). apply writes_out1.
  - apply writes_ret.
Qed.

Lemma emit_members_printer (attributes : gset string) (soup : node) :
  printer (emit_members attributes soup).
Proof.
  unfold emit_members.
  repeat first
    [ apply printer_out
    | apply printer_ret
    | apply printer_tag_item
    | apply printer_as_str
    | apply (printer_writes _ _ (out_bodies_writes _ _))
    | apply printer_bind; [|intros ?]
    | apply printer_for_; intros ?
    | match goal with
      | |- printer (match ?x with Some _ => _ | None => _ end) => destruct x
      | |- printer (if ?b then _ else _) => destruct b
      end ].
Qed.

(** The style step. *)
Lemma emit_style_run (style : string) (w : world) :
  emit_style style w =
  if nonempty style then
    match sassc_result style with
    | inl e => (inl e, called w style)
    | inr css => (inr tt, emit (called w style) (style_text css))
    end
  else (inr tt, w).
Proof.
  unfold emit_style. destruct (nonempty style); [|done].
  rewrite run_bind, sassc_run.
  destruct (sassc_result style) as [e|css]; [done|].
  assert (writes
    (out ["this.shadow.append($e('style', {}, ['"] ;;
     out [js_str_esc css] ;; out ["']));"]) (style_text css)) as H.
  { unfold style_text.
    repeat (apply writes_bind; [apply writes_out1|]). apply writes_out1. }
  apply H.
Qed.

(** What [compile] does once the template is found: the two lookups
    that can stop it before anything is printed, the opening, the style
    step, the rest of the constructor with the observed attributes, and
    the other members. *)
Lemma compile_from_run (src : string) (soup tpl : node) (w : world) :
  compile_from src soup tpl w =
  match attributes_of soup with
  | inl e => (inl e, w)
  | inr attributes =>
      match parse_properties src !! "name" with
      | None => (inl (KeyError "name"), w)
      | Some name =>
          if nonempty (gather_style soup) then
            match sassc_result (gather_style soup) with
            | inl e =>
                (inl e, called (emit w (opening_text name)) (gather_style soup))
            | inr css =>
                emit_members attributes soup
                  (emit (called (emit w (opening_text name)) (gather_style soup))
                     (style_text css +:+
                      constructor_rest decode_contents tpl soup attributes))
            end
          else
            emit_members attributes soup
              (emit w (opening_text name +:+
                       constructor_rest decode_contents tpl soup attributes))
      end
  end.
Proof.
  unfold compile_from.
  rewrite run_bind, gather_attributes_run.
  destruct (attributes_of soup) as [e|attributes]; [done|].
  rewrite run_bind. unfold dict_item.
  destruct (parse_properties src !! "name") as [name|]; [|done].
  cbn [ret].
  rewrite (writes_run _ _ _ _ (emit_opening_writes name)).
  rewrite run_bind, emit_style_run.
  assert (forall w1 text,
    (emit_template tpl ;; out_bodies "constructor" soup ;; out ["}"] ;;
     emit_observed attributes ;; emit_members attributes soup) (emit w1 text) =
    emit_members attributes soup
      (emit w1 (text +:+ constructor_rest decode_contents tpl soup attributes)))
    as Hrest.
  { intros w1 text. unfold constructor_rest.
    rewrite (writes_run _ _ _ _ (emit_template_writes tpl)).
    rewrite (writes_run _ _ _ _ (out_bodies_writes "constructor" soup)).
    rewrite (writes_run _ _ _ _ (writes_out1 "}")).
    rewrite (writes_run _ _ _ _ (emit_observed_writes attributes)).
    by rewrite !emit_emit, ?append_assoc. }
  destruct (nonempty (gather_style soup)).
  - destruct (sassc_result (gather_style soup)) as [e|css]; [done|].
    apply Hrest.
  - apply Hrest.
Qed.

(** The errors of the two lookups and of the style step. *)
Lemma attributes_of_error (soup : node) (e : exn) :
  attributes_of soup = inl e -> lookup_error e = true.
Proof.
  unfold attributes_of.
  assert (forall (l : list node) (acc : gset string) w,
    match fst (for_acc l acc
      (fun attributes s =>
         v <- tag_item s "attr" ;;
         a <- as_str v ;;
         ret (attributes ∪ {[a]})) w) with
    | inl e => lookup_error e = true
    | inr _ => True
    end) as H.
  { induction l as [|s l IH]; intros acc w; [done|].
    cbn [for_acc]. rewrite !run_bind. unfold tag_item.
    destruct (Soup.get "attr" (Soup.attrs_of s)) as [[a|l']|]; try done.
    apply IH. }
  intros E. specialize (H (scripts "attr" soup) ∅ (World EmptyString [])).
  unfold gather_attributes in E. by rewrite E in H.
Qed.

Lemma sassc_result_error (style : string) (e : exn) :
  sassc_result style = inl e -> e = OSError \/ e = UnicodeDecodeError.
Proof.
  unfold sassc_result, sassc.
  destruct sassc_available; [|done].
  unfold sassc_external. rewrite run_bind. simpl.
  destruct (run_sassc style) as [res|]; [|intros [= <-]; by left].
  destruct (stdout_decoded res); [done|intros [= <-]; by right].
Qed.

(** The exit status plays no part in what [sassc] returns. *)
Lemma sassc_result_completed (style : string) (res : CompletedProcess)
    (text : string) :
  sassc_available = true ->
  run_sassc style = Some res ->
  stdout_decoded res = Some text ->
  sassc_result style = inr (Py.strip text).
Proof.
  intros Ha Hr Ht. unfold sassc_result, sassc.
  rewrite Ha. unfold sassc_external. rewrite run_bind. simpl.
  by rewrite Hr, Ht.
Qed.

Lemma compile_from_errors (src : string) (soup tpl : node) (w : world) :
  fst (compile_from src soup tpl w) <> inl AssertionError /\
  fst (compile_from src soup tpl w) <> inl IndexError.
Proof.
  rewrite compile_from_run.
  destruct (attributes_of soup) as [e|attributes] eqn:Ea.
  { apply attributes_of_error in Ea. by destruct e. }
  destruct (parse_properties src !! "name") as [name|]; [|done].
  destruct (nonempty (gather_style soup)).
  - destruct (sassc_result (gather_style soup)) as [e|css] eqn:Es.
    + by destruct (sassc_result_error _ _ Es) as [-> | ->].
    + destruct (printer_run _ (emit (called (emit w (opening_text name))
                  (gather_style soup))
                  (style_text css +:+
                   constructor_rest decode_contents tpl soup attributes))
                  (emit_members_printer attributes soup))
        as (text & _ & _ & H1 & H2 & _). done.
  - destruct (printer_run _ (emit w (opening_text name +:+
                  constructor_rest decode_contents tpl soup attributes))
                  (emit_members_printer attributes soup))
      as (text & _ & _ & H1 & H2 & _). done.
Qed.

Lemma compile_assertion (src : string) (soup : node) (w : world) :
  length (Soup.find_all "template" None soup) <> 1 ->
  compile src soup w = (inl AssertionError, w).
Proof.
  intros Hn. rewrite compile_parts, run_bind.
  apply Nat.eqb_neq in Hn. by rewrite Hn.
Qed.

Lemma compile_with_template (src : string) (soup tpl : node) (w : world) :
  Soup.find_all "template" None soup = [tpl] ->
  compile src soup w = compile_from src soup tpl w.
Proof. intros Ht. rewrite compile_parts, run_bind, Ht. reflexivity. Qed.

(** C1.  With no template element, or with more than one, [compile]
    stops on the assertion of line 214 before anything is printed.
    With exactly one it goes on with that template, and whatever
    happens later is not a failure of the assertion. *)
Theorem compile_template_count (src : string) (soup : node) (w : world) :
  (length (Soup.find_all "template" None soup) <> 1 ->
   compile src soup w = (inl AssertionError, w)) /\
  (forall tpl, Soup.find_all "template" None soup = [tpl] ->
   compile src soup w = compile_from src soup tpl w /\
   fst (compile src soup w) <> inl AssertionError /\
   fst (compile src soup w) <> inl IndexError).
Proof.
  split; [apply compile_assertion|].
  intros tpl Ht. rewrite (compile_with_template _ _ _ _ Ht).
  split; [done|]. apply compile_from_errors.
Qed.

(** A successful run, taken apart. *)
Lemma compile_success (src : string) (soup : node) (w w' : world) :
  compile src soup w = (inr tt, w') ->
  exists tpl attributes name style_out members,
    Soup.find_all "template" None soup = [tpl] /\
    attributes_of soup = inr attributes /\
    parse_properties src !! "name" = Some name /\
    (if nonempty (gather_style soup)
     then exists css,
            sassc_result (gather_style soup) = inr css /\
            style_out = style_text css
     else style_out = EmptyString) /\
    stdout w' =
      stdout w +:+ opening_text name +:+ style_out +:+
      constructor_rest decode_contents tpl soup attributes +:+ members /\
    sassc_calls w' =
      sassc_calls w ++
      (if nonempty (gather_style soup) then [gather_style soup] else []).
Proof.
  intros Hrun.
  destruct (decide (length (Soup.find_all "template" None soup) = 1))
    as [Hlen|Hlen].
  2:{ by rewrite (compile_assertion _ _ _ Hlen) in Hrun. }
  destruct (Soup.find_all "template" None soup) as [|tpl [|]] eqn:Et;
    try done.
  rewrite (compile_with_template _ _ _ _ Et), compile_from_run in Hrun.
  destruct (attributes_of soup) as [e|attributes]; [done|].
  destruct (parse_properties src !! "name") as [name|]; [|done].
  exists tpl, attributes, name.
  destruct (nonempty (gather_style soup)).
  - destruct (sassc_result (gather_style soup)) as [e|css]; [done|].
    destruct (printer_run _ (emit (called (emit w (opening_text name))
                  (gather_style soup))
                  (style_text css +:+
                   constructor_rest decode_contents tpl soup attributes))
                  (emit_members_printer attributes soup))
      as (members & Hout & Hcalls & _).
    rewrite Hrun in Hout, Hcalls. simpl in Hout, Hcalls.
    exists (style_text css), members.
    repeat split; try done; [by exists css|].
    by rewrite Hout, !append_assoc.
  - destruct (printer_run _ (emit w (opening_text name +:+
                  constructor_rest decode_contents tpl soup attributes))
                  (emit_members_printer attributes soup))
      as (members & Hout & Hcalls & _).
    rewrite Hrun in Hout, Hcalls. simpl in Hout, Hcalls.
    exists EmptyString, members.
    repeat split; try done; [|by rewrite Hcalls, app_nil_r].
    by rewrite Hout, !append_assoc.
Qed.

(** C7.  The output of a successful run starts with the registration
    and the class header; the constructor body is then the call of
    [super], the attachment of the open shadow root, the style
    construction with the preprocessed text exactly when the gathered
    style text is not empty, one [append] per child of the template,
    and the bodies of the constructor scripts in document order; the
    closing brace of the constructor follows. *)
Theorem compile_constructor_body (src : string) (soup : node) (w w' : world) :
  compile src soup w = (inr tt, w') ->
  exists tpl name style_out rest,
    Soup.find_all "template" None soup = [tpl] /\
    parse_properties src !! "name" = Some name /\
    (if nonempty (gather_style soup)
     then exists css,
            sassc_result (gather_style soup) = inr css /\
            style_out =
              "this.shadow.append($e('style', {}, ['" +:+
              js_str_esc css +:+ "']));"
     else style_out = EmptyString) /\
    stdout w' =
      stdout w +:+
      ("customElements.define('" +:+ name +:+ "',") +:+
      "class extends HTMLElement{" +:+
      "constructor(){" +:+
      "super();" +:+
      "this.shadow = this.attachShadow({'mode':'open'});" +:+
      style_out +:+
      cat (fun t => "this.shadow.append(" +:+ written (html2js t) +:+ ");")
        (Soup.children tpl) +:+
      cat decode_contents (scripts "constructor" soup) +:+
      "}" +:+
      rest.
Proof.
  intros Hrun.
  destruct (compile_success _ _ _ _ Hrun)
    as (tpl & attributes & name & style_out & members
        & Ht & _ & Hn & Hs & Hout & _).
  exists tpl, name, style_out, (observed_part attributes +:+ members).
  repeat split; try done.
  rewrite Hout. unfold opening_text, constructor_rest, template_text.
  unfold bodies_text. by rewrite !append_assoc.
Qed.

(** Which calls of [sassc] a run makes: none, or one with the gathered
    style text, which is then not empty. *)
Lemma compile_calls (src : string) (soup : node) (w : world) :
  sassc_calls (snd (compile src soup w)) = sassc_calls w \/
  (nonempty (gather_style soup) = true /\
   sassc_calls (snd (compile src soup w)) =
     sassc_calls w ++ [gather_style soup]).
Proof.
  destruct (decide (length (Soup.find_all "template" None soup) = 1))
    as [Hlen|Hlen].
  2:{ rewrite (compile_assertion _ _ _ Hlen). by left. }
  destruct (Soup.find_all "template" None soup) as [|tpl [|]] eqn:Et;
    try done.
  rewrite (compile_with_template _ _ _ _ Et), compile_from_run.
  destruct (attributes_of soup) as [e|attributes]; [by left|].
  destruct (parse_properties src !! "name") as [name|]; [|by left].
  destruct (nonempty (gather_style soup)).
  - right. split; [done|].
    destruct (sassc_result (gather_style soup)) as [e|css]; [done|].
    destruct (printer_run _ (emit (called (emit w (opening_text name))
                  (gather_style soup))
                  (style_text css +:+
                   constructor_rest decode_contents tpl soup attributes))
                  (emit_members_printer attributes soup))
      as (members & _ & Hcalls & _).
    by rewrite Hcalls.
  - left.
    destruct (printer_run _ (emit w (opening_text name +:+
                  constructor_rest decode_contents tpl soup attributes))
                  (emit_members_printer attributes soup))
      as (members & _ & Hcalls & _).
    by rewrite Hcalls.
Qed.

(** C10.  When the contents of every style element are white space
    only, the gathered style text is empty: [sassc] is not called, and
    in the output of a successful run the appends of the template
    follow the attachment of the shadow root directly. *)
Theorem whitespace_styles_emit_nothing (src : string) (soup : node)
    (w : world) :
  Forall (fun s => all_space (decode_contents s) = true)
    (Soup.find_all "style" None soup) ->
  gather_style soup = EmptyString /\
  sassc_calls (snd (compile src soup w)) = sassc_calls w /\
  (forall w', compile src soup w = (inr tt, w') ->
   exists tpl name rest,
     Soup.find_all "template" None soup = [tpl] /\
     parse_properties src !! "name" = Some name /\
     stdout w' =
       stdout w +:+ opening_text name +:+ template_text tpl +:+
       bodies_text "constructor" soup +:+ "}" +:+ rest).
Proof.
  intros Hws.
  assert (gather_style soup = EmptyString) as Hstyle.
  { rewrite gather_style_cat. apply cat_all_empty.
    eapply Forall_impl; [exact Hws|]. intros s Hs. by apply strip_all_space. }
  split; [done|]. split.
  - destruct (compile_calls src soup w) as [H|[H _]]; [done|].
    by rewrite Hstyle in H.
  - intros w' Hrun.
    destruct (compile_success _ _ _ _ Hrun)
      as (tpl & attributes & name & style_out & members
          & Ht & _ & Hn & Hs & Hout & _).
    rewrite Hstyle in Hs. simpl in Hs. subst style_out.
    exists tpl, name, (observed_part attributes +:+ members).
    repeat split; try done.
    rewrite Hout, append_nil_l. unfold constructor_rest.
    by rewrite !append_assoc.
Qed.

(** C4 (amended).  The gathered style text is the concatenation, in
    document order, of the contents of the style elements, each trimmed
    on its own.  [sassc] is called only when that text is not empty:
    with an empty text no run calls it; with a non-empty text a run
    calls it at most once, with that text, and a successful run does
    call it.  Without the executable the text comes back unchanged. *)
Theorem style_handed_to_sassc (src : string) (soup : node) (w : world) :
  gather_style soup =
    cat (fun s => Py.strip (decode_contents s))
      (Soup.find_all "style" None soup) /\
  (nonempty (gather_style soup) = false ->
   sassc_calls (snd (compile src soup w)) = sassc_calls w) /\
  (sassc_calls (snd (compile src soup w)) = sassc_calls w \/
   (nonempty (gather_style soup) = true /\
    sassc_calls (snd (compile src soup w)) =
      sassc_calls w ++ [gather_style soup])) /\
  (forall w', compile src soup w = (inr tt, w') ->
   sassc_calls w' =
     sassc_calls w ++
     (if nonempty (gather_style soup) then [gather_style soup] else [])) /\
  (sassc_available = false ->
   sassc_result (gather_style soup) = inr (gather_style soup)).
Proof.
  split; [apply gather_style_cat|]. split; [|split; [|split]].
  - intros Hempty.
    destruct (compile_calls src soup w) as [H|[H _]]; [done|congruence].
  - apply compile_calls.
  - intros w' Hrun.
    by destruct (compile_success _ _ _ _ Hrun)
      as (tpl & attributes & name & style_out & members
          & _ & _ & _ & _ & _ & Hcalls).
  - intros Ha. unfold sassc_result, sassc.
    rewrite Ha. simpl. by rewrite gather_style_cat, strip_cat_strip.
Qed.

(** C8 (amended).  With the executable detected and a non-empty style
    text, in a run that reaches the style step: if starting the process
    raises, or its output does not decode, the run stops on that error
    with nothing printed after the opening of the constructor.  If the
    process completes, the run goes on with its trimmed output as the
    style text; the exit status is not looked at. *)
Theorem sassc_failure_fatal (src : string) (soup tpl : node)
    (attributes : gset string) (name : string) (w : world) :
  sassc_available = true ->
  Soup.find_all "template" None soup = [tpl] ->
  attributes_of soup = inr attributes ->
  parse_properties src !! "name" = Some name ->
  nonempty (gather_style soup) = true ->
  match run_sassc (gather_style soup) with
  | None =>
      compile src soup w =
      (inl OSError, called (emit w (opening_text name)) (gather_style soup))
  | Some res =>
      match stdout_decoded res with
      | None =>
          compile src soup w =
          (inl UnicodeDecodeError,
           called (emit w (opening_text name)) (gather_style soup))
      | Some text =>
          compile src soup w =
          emit_members attributes soup
            (emit (called (emit w (opening_text name)) (gather_style soup))
               (style_text (Py.strip text) +:+
                constructor_rest decode_contents tpl soup attributes))
      end
  end.
Proof.
  intros Ha Ht Hattrs Hname Hne.
  rewrite (compile_with_template _ _ _ _ Ht), compile_from_run.
  rewrite Hattrs, Hname, Hne.
  destruct (run_sassc (gather_style soup)) as [res|] eqn:Hr.
  - destruct (stdout_decoded res) as [text|] eqn:Hd.
    + by rewrite (sassc_result_completed _ _ _ Ha Hr Hd).
    + unfold sassc_result, sassc. rewrite Ha.
      unfold sassc_external. rewrite run_bind. simpl. by rewrite Hr, Hd.
  - unfold sassc_result, sassc. rewrite Ha.
    unfold sassc_external. rewrite run_bind. simpl. by rewrite Hr.
Qed.

(** The loop of lines 224-225: when it succeeds, every script it went
    through carries a string under [attr], and the set holds these
    strings besides what it held before. *)
Lemma gather_loop_spec (l : list node) (acc r : gset string) (w w' : world) :
  for_acc l acc
    (fun attributes s =>
       v <- tag_item s "attr" ;;
       a <- as_str v ;;
       ret (attributes ∪ {[a]})) w = (inr r, w') ->
  Forall (fun s => exists a,
            Soup.get "attr" (Soup.attrs_of s) = Some (AttrStr a)) l /\
  forall a, a ∈ r <->
    a ∈ acc \/
    exists s, s ∈ l /\ Soup.get "attr" (Soup.attrs_of s) = Some (AttrStr a).
Proof.
  revert acc w. induction l as [|s l IH]; intros acc w.
  - intros [= <- <-]. split; [constructor|].
    intros a. split; [by left|]. intros [H|(s & Hs & _)]; [done|].
    by apply elem_of_nil in Hs.
  - cbn [for_acc]. rewrite !run_bind. unfold tag_item.
    destruct (Soup.get "attr" (Soup.attrs_of s)) as [[a0|l0]|] eqn:Hg;
      try done.
    cbn [ret as_str]. rewrite !run_bind. cbn [ret].
    intros [Hall Hmem]%IH. split.
    + constructor; [by exists a0|done].
    + intros a. rewrite Hmem, elem_of_union, elem_of_singleton. split.
      * intros [[H| ->]|(s' & Hs' & Hg')].
        -- by left.
        -- right. exists s. split; [apply list_elem_of_here|done].
        -- right. exists s'. split; [by apply list_elem_of_further|done].
      * intros [H|(s' & Hs' & Hg')]; [by left; left|].
        apply elem_of_cons in Hs' as [->|Hs'].
        -- left. right. congruence.
        -- right. by exists s'.
Qed.

Lemma attributes_of_spec (soup : node) (attributes : gset string) :
  attributes_of soup = inr attributes ->
  Forall (fun s => exists a,
            Soup.get "attr" (Soup.attrs_of s) = Some (AttrStr a))
    (scripts "attr" soup) /\
  forall a, a ∈ attributes <->
    exists s, s ∈ scripts "attr" soup /\
              Soup.get "attr" (Soup.attrs_of s) = Some (AttrStr a).
Proof.
  unfold attributes_of, gather_attributes. intros H.
  destruct (for_acc _ _ _ _) as [r w'] eqn:E. simpl in H. subst r.
  apply gather_loop_spec in E as [Hall Hmem]. split; [done|].
  intros a. rewrite Hmem. split; [|by right].
  intros [H|H]; [|done]. by apply not_elem_of_empty in H.
Qed.

Lemma sorted_attributes_spec (attributes : gset string) :
  StronglySorted String.le (sorted_attributes attributes) /\
  NoDup (sorted_attributes attributes) /\
  forall a, a ∈ sorted_attributes attributes <-> a ∈ attributes.
Proof.
  unfold sorted_attributes. split; [|split].
  - apply StronglySorted_merge_sort; apply _.
  - rewrite merge_sort_Permutation. apply NoDup_elements.
  - intros a. by rewrite merge_sort_Permutation, elem_of_elements.
Qed.

(** C3.  In the output of a successful run on a document with at least
    one attr script, the closing brace of the constructor is followed
    by the accessor that returns the list [names]: the names declared
    by the attr scripts, each once, in ascending order. *)
Theorem observed_attributes_sorted (src : string) (soup : node)
    (w w' : world) :
  compile src soup w = (inr tt, w') ->
  scripts "attr" soup <> [] ->
  exists names tpl name style_out after,
    stdout w' =
      (stdout w +:+ opening_text name +:+ style_out +:+
       template_text tpl +:+ bodies_text "constructor" soup +:+ "}") +:+
      ("static get observedAttributes(){return" +:+ Json.dumps names +:+ ";}")
      +:+ after /\
    StronglySorted String.le names /\
    NoDup names /\
    forall a, a ∈ names <->
      exists s, s ∈ scripts "attr" soup /\
                Soup.get "attr" (Soup.attrs_of s) = Some (AttrStr a).
Proof.
  intros Hrun Hscripts.
  destruct (compile_success _ _ _ _ Hrun)
    as (tpl & attributes & name & style_out & members
        & _ & Hattrs & _ & _ & Hout & _).
  destruct (attributes_of_spec _ _ Hattrs) as [Hall Hmem].
  destruct (sorted_attributes_spec attributes) as (Hsorted & Hnodup & Hnames).
  assert (attributes ≠ ∅) as Hne.
  { destruct (scripts "attr" soup) as [|s l] eqn:El; [done|].
    apply Forall_cons in Hall as [[a Ha] _].
    assert (a ∈ attributes) as Hin.
    { apply Hmem. exists s. split; [apply list_elem_of_here|done]. }
    intros E. rewrite E in Hin. by apply not_elem_of_empty in Hin. }
  exists (sorted_attributes attributes), tpl, name, style_out, members.
  split; [|split; [done|split; [done|]]].
  - rewrite Hout. unfold constructor_rest, observed_part, observed_text.
    rewrite (bool_decide_eq_true_2 _ Hne). by rewrite !append_assoc.
  - intros a. by rewrite Hnames, Hmem.
Qed.

End CompileProperties.

(** ** The statements at sample documents *)

(** The text printed for a tag with a class list and another
    attribute. *)
Example html2js_sample :
  written (html2js (Tag "div"
                      [("class", AttrList ["a"; "b"]); ("id", AttrStr "x'y")]
                      [Tag "br" [] []])) =
  "$e('div',{'classList':'ab','id':'x\'y',},[$e('br',{},[]),])".
Proof. vm_compute. reflexivity. Qed.

(** C6 (evaluated where it fails).  The value of [class] is a list, and
    the escaper compares its items whole: the one item of
    [class="x','class':'y"] is not a quote, so it is copied with its
    quotes as they are.  The attribute object printed for the element
    then has, after the entry with the key [classList], an entry with
    the key [class]. *)
Theorem html2js_class_key_injected :
  js_str_esc_value (AttrList ["x','class':'y"]) = "x','class':'y" /\
  written (html2js (Tag "a" [("class", AttrList ["x','class':'y"])] [])) =
  "$e('a',{'classList':'x','class':'y',},[])".
Proof. split; vm_compute; reflexivity. Qed.

Lemma compile_template_count_witness :
  compile Sample.text_contents false Sample.cannot_start Sample.src
    (Tag "[document]" [] []) Sample.start =
  (inl AssertionError, Sample.start) /\
  compile Sample.text_contents false Sample.cannot_start Sample.src
    (Sample.document []) Sample.start =
  compile_from Sample.text_contents false Sample.cannot_start Sample.src
    (Sample.document []) Sample.template Sample.start.
Proof.
  split.
  - apply (proj1 (compile_template_count Sample.text_contents false
                    Sample.cannot_start Sample.src (Tag "[document]" [] [])
                    Sample.start)).
    vm_compute. lia.
  - apply (proj2 (compile_template_count Sample.text_contents false
                    Sample.cannot_start Sample.src (Sample.document [])
                    Sample.start) Sample.template).
    reflexivity.
Defined.

Lemma observed_attributes_sorted_witness :
  exists names tpl name style_out after,
    stdout (snd (compile Sample.text_contents false Sample.cannot_start
                   Sample.src (Sample.document Sample.attr_scripts)
                   Sample.start)) =
      (stdout Sample.start +:+ opening_text name +:+ style_out +:+
       template_text tpl +:+
       bodies_text Sample.text_contents "constructor"
         (Sample.document Sample.attr_scripts) +:+ "}") +:+
      ("static get observedAttributes(){return" +:+ Json.dumps names +:+ ";}")
      +:+ after /\
    StronglySorted String.le names /\
    NoDup names /\
    forall a, a ∈ names <->
      exists s, s ∈ scripts "attr" (Sample.document Sample.attr_scripts) /\
                Soup.get "attr" (Soup.attrs_of s) = Some (AttrStr a).
Proof.
  apply (observed_attributes_sorted Sample.text_contents false
           Sample.cannot_start Sample.src
           (Sample.document Sample.attr_scripts) Sample.start).
  - vm_compute. reflexivity.
  - vm_compute. discriminate.
Defined.

(** The list printed for the sample: two names for three scripts. *)
Example observed_attributes_sample :
  sorted_attributes ({[ "value" ]} ∪ {[ "alpha" ]} ∪ {[ "value" ]}) =
  ["alpha"; "value"].
Proof. vm_compute. reflexivity. Qed.

Lemma compile_constructor_body_witness :
  exists tpl name style_out rest,
    Soup.find_all "template" None (Sample.document Sample.two_styles) = [tpl] /\
    parse_properties Sample.src !! "name" = Some name /\
    (if nonempty (gather_style Sample.text_contents
                    (Sample.document Sample.two_styles))
     then exists css,
            sassc_result false Sample.cannot_start
              (gather_style Sample.text_contents
                 (Sample.document Sample.two_styles)) = inr css /\
            style_out =
              "this.shadow.append($e('style', {}, ['" +:+
              js_str_esc css +:+ "']));"
     else style_out = EmptyString) /\
    stdout (snd (compile Sample.text_contents false Sample.cannot_start
                   Sample.src (Sample.document Sample.two_styles)
                   Sample.start)) =
      stdout Sample.start +:+
      ("customElements.define('" +:+ name +:+ "',") +:+
      "class extends HTMLElement{" +:+
      "constructor(){" +:+
      "super();" +:+
      "this.shadow = this.attachShadow({'mode':'open'});" +:+
      style_out +:+
      cat (fun t => "this.shadow.append(" +:+ written (html2js t) +:+ ");")
        (Soup.children tpl) +:+
      cat Sample.text_contents
        (scripts "constructor" (Sample.document Sample.two_styles)) +:+
      "}" +:+
      rest.
Proof.
  apply (compile_constructor_body Sample.text_contents false
           Sample.cannot_start Sample.src
           (Sample.document Sample.two_styles) Sample.start).
  vm_compute. reflexivity.
Defined.

Lemma whitespace_styles_emit_nothing_witness :
  gather_style Sample.text_contents (Sample.document Sample.blank_styles) =
    EmptyString /\
  sassc_calls (snd (compile Sample.text_contents true Sample.cannot_start
                      Sample.src (Sample.document Sample.blank_styles)
                      Sample.start)) =
    sassc_calls Sample.start.
Proof.
  pose proof (whitespace_styles_emit_nothing Sample.text_contents true
                Sample.cannot_start Sample.src
                (Sample.document Sample.blank_styles) Sample.start) as H.
  destruct H as (H1 & H2 & _); [|by split].
  vm_compute. repeat constructor.
Defined.

(** C4, as stated, fails: with two style elements whose contents are
    [a{} ] and [ b{}], [sassc] is called with the two trimmed texts put
    together, not with the trimmed concatenation, which keeps the white
    space between them. *)
Lemma style_not_trimmed_as_a_whole :
  sassc_calls (snd (compile Sample.text_contents false Sample.cannot_start
                      Sample.src (Sample.document Sample.two_styles)
                      Sample.start)) = ["a{}b{}"] /\
  Py.strip (cat Sample.text_contents
              (Soup.find_all "style" None
                 (Sample.document Sample.two_styles))) = "a{}  b{}".
Proof. split; vm_compute; reflexivity. Qed.

Lemma style_handed_to_sassc_witness :
  sassc_calls (snd (compile Sample.text_contents false Sample.cannot_start
                      Sample.src (Sample.document Sample.blank_styles)
                      Sample.start)) = sassc_calls Sample.start /\
  sassc_calls (snd (compile Sample.text_contents false Sample.cannot_start
                      Sample.src (Sample.document Sample.two_styles)
                      Sample.start)) =
    sassc_calls Sample.start ++
    [gather_style Sample.text_contents (Sample.document Sample.two_styles)] /\
  sassc_result false Sample.cannot_start
    (gather_style Sample.text_contents (Sample.document Sample.two_styles)) =
    inr (gather_style Sample.text_contents
           (Sample.document Sample.two_styles)).
Proof.
  destruct (style_handed_to_sassc Sample.text_contents false
              Sample.cannot_start Sample.src
              (Sample.document Sample.blank_styles) Sample.start)
    as (_ & Hnone & _).
  destruct (style_handed_to_sassc Sample.text_contents false
              Sample.cannot_start Sample.src
              (Sample.document Sample.two_styles) Sample.start)
    as (_ & _ & _ & Hcall & Hback).
  split; [|split].
  - apply Hnone. reflexivity.
  - apply (Hcall (snd (compile Sample.text_contents false Sample.cannot_start
                         Sample.src (Sample.document Sample.two_styles)
                         Sample.start))).
    vm_compute. reflexivity.
  - apply Hback. reflexivity.
Defined.

Lemma sassc_failure_fatal_witness :
  compile Sample.text_contents true Sample.cannot_start Sample.src
    (Sample.document Sample.two_styles) Sample.start =
  (inl OSError,
   called (emit Sample.start (opening_text "my-widget")) "a{}b{}").
Proof.
  apply (sassc_failure_fatal Sample.text_contents true Sample.cannot_start
           Sample.src (Sample.document Sample.two_styles) Sample.template
           ∅ "my-widget" Sample.start);
    vm_compute; reflexivity.
Defined.

(** C8, as stated, fails: the process exits with status 1, and the run
    succeeds and prints the whole class, with the empty output of the
    process as its style text. *)
Lemma sassc_exit_status_ignored :
  returncode <$> Sample.exits_with_1 "a{}b{}" = Some 1%Z /\
  compile Sample.text_contents true Sample.exits_with_1 Sample.src
    (Sample.document Sample.two_styles) Sample.start =
  (inr tt,
   {| stdout :=
        "customElements.define('my-widget',class extends HTMLElement{" +:+
        "constructor(){super();" +:+
        "this.shadow = this.attachShadow({'mode':'open'});" +:+
        "this.shadow.append($e('style', {}, ['']));" +:+
        "this.shadow.append($e('span',{},[]));}});";
      sassc_calls := ["a{}b{}"] |}).
Proof. split; vm_compute; reflexivity. Qed.

(** * Further properties of the program *)

(** ** The string escaper, continued *)

Lemma length_append (s t : string) :
  String.length (s +:+ t) = String.length s + String.length t.
Proof. induction s as [|c s IH]; [done|]. rewrite append_cons. simpl. lia. Qed.

Lemma has_char_append (c : ascii) (s t : string) :
  has_char c (s +:+ t) = has_char c s || has_char c t.
Proof.
  induction s as [|d s IH]; [done|]. rewrite append_cons. cbn [has_char].
  by rewrite IH, orb_assoc.
Qed.

(** X1.  Escaping goes character by character: the escaped form of a
    concatenation is the concatenation of the escaped forms. *)
Theorem js_str_esc_app (s t : string) :
  js_str_esc (s +:+ t) = js_str_esc s +:+ js_str_esc t.
Proof.
  induction s as [|c s IH]; [done|].
  by rewrite append_cons, !js_str_esc_cons, IH, append_assoc.
Qed.

Lemma js_str_esc_length_bounds (s : string) :
  String.length s <= String.length (js_str_esc s) <= 2 * String.length s.
Proof.
  induction s as [|c s IH]; [simpl; lia|].
  rewrite js_str_esc_cons, length_append.
  destruct (esc_item_cases c) as [[-> ->]|[[-> ->]|[[-> ->]|(_ & _ & _ & ->)]]];
    simpl; lia.
Qed.

(** X2.  The escaped form of a text is at least as long as the text
    and at most twice as long. *)
Theorem js_str_esc_length (s : string) :
  String.length s <= String.length (js_str_esc s) <= 2 * String.length s.
Proof. apply js_str_esc_length_bounds. Qed.

(** X3.  Two different texts never have the same escaped form. *)
Theorem js_str_esc_inj (s t : string) :
  js_str_esc s = js_str_esc t -> s = t.
Proof.
  revert t. induction s as [|a s IH]; intros [|b t].
  - done.
  - rewrite js_str_esc_cons.
    destruct (esc_item_cases b) as [[-> ->]|[[-> ->]|[[-> ->]|(_ & _ & _ & ->)]]];
      done.
  - rewrite js_str_esc_cons.
    destruct (esc_item_cases a) as [[-> ->]|[[-> ->]|[[-> ->]|(_ & _ & _ & ->)]]];
      done.
  - rewrite !js_str_esc_cons.
    destruct (esc_item_cases a)
      as [[-> ->]|[[-> ->]|[[-> ->]|(Ha1 & Ha2 & Ha3 & ->)]]];
    destruct (esc_item_cases b)
      as [[-> ->]|[[-> ->]|[[-> ->]|(Hb1 & Hb2 & Hb3 & ->)]]];
    unfold chr, SQUOTE, LF, BACKSLASH in *;
    rewrite ?append_cons, ?append_nil_l;
    intros H; simplify_eq; try done; f_equal; by apply IH.
Qed.

Lemma js_str_esc_inj_witness :
  "a'b" = "a'b".
Proof. apply (js_str_esc_inj "a'b" "a'b"). reflexivity. Defined.

(** X4.  The escaped form never contains a line feed. *)
Theorem js_str_esc_no_line_feed (s : string) :
  has_char LF (js_str_esc s) = false.
Proof.
  induction s as [|c s IH]; [done|].
  rewrite js_str_esc_cons, has_char_append, IH, orb_false_r.
  destruct (esc_item_cases c) as [[-> ->]|[[-> ->]|[[-> ->]|(_ & H & _ & ->)]]];
    try done.
  unfold chr. cbn [has_char]. rewrite orb_false_r.
  apply Ascii.eqb_neq. congruence.
Qed.

Lemma js_str_esc_unchanged (s : string) :
  has_char SQUOTE s = false -> has_char LF s = false ->
  has_char BACKSLASH s = false -> js_str_esc s = s.
Proof.
  induction s as [|c s IH]; [done|].
  cbn [has_char].
  intros [H1 I1]%orb_false_elim [H2 I2]%orb_false_elim
         [H3 I3]%orb_false_elim.
  rewrite js_str_esc_cons, (IH I1 I2 I3).
  apply Ascii.eqb_neq in H1, H2, H3.
  destruct (esc_item_cases c) as [[-> _]|[[-> _]|[[-> _]|(_ & _ & _ & ->)]]];
    done.
Qed.

(** X5.  A text is its own escaped form exactly when it contains no
    quote, no line feed and no backslash; a double quote, in
    particular, is copied as it is. *)
Theorem js_str_esc_unchanged_iff (s : string) :
  js_str_esc s = s <->
  has_char SQUOTE s = false /\ has_char LF s = false /\
  has_char BACKSLASH s = false.
Proof.
  split.
  - induction s as [|c s IH]; [done|].
    rewrite js_str_esc_cons. cbn [has_char].
    pose proof (js_str_esc_length_bounds s) as Hlen.
    destruct (esc_item_cases c)
      as [[-> ->]|[[-> ->]|[[-> ->]|(H1 & H2 & H3 & ->)]]];
      unfold chr, SQUOTE, LF, BACKSLASH in *;
      rewrite ?append_cons, ?append_nil_l; intros H;
      simplify_eq.
    + apply (f_equal String.length) in H. simpl in H. lia.
    + destruct (IH H) as (I1 & I2 & I3). rewrite I1, I2, I3, !orb_false_r.
      repeat split; apply Ascii.eqb_neq; congruence.
  - intros (H1 & H2 & H3). by apply js_str_esc_unchanged.
Qed.

Lemma esc_item_long (c : string) : String.length c <> 1 -> esc_item c = c.
Proof.
  intros H. unfold esc_item, chr.
  destruct c as [|a [|b c]]; [done|done|]. simpl.
  by destruct (Ascii.eqb a SQUOTE), (Ascii.eqb a LF), (Ascii.eqb a BACKSLASH).
Qed.

(** X6.  On a list of strings, the value of a multi-valued attribute,
    the escaper treats each item as one character: items that are not
    exactly one character long are copied whole, whatever they
    contain, and the result is the items put together with nothing
    between them. *)
Theorem js_str_esc_iter_long_items (items : list string) :
  Forall (fun c => String.length c <> 1) items ->
  js_str_esc_iter items = Py.join items.
Proof.
  intros H. rewrite js_str_esc_iter_cat. unfold cat.
  induction H as [|c l Hc Hl IH]; [done|].
  rewrite fmap_cons. unfold Py.join in *. simpl.
  by rewrite IH, (esc_item_long _ Hc).
Qed.

Lemma js_str_esc_iter_long_items_witness :
  js_str_esc_iter ["a'b"; "cd"] = Py.join ["a'b"; "cd"].
Proof.
  apply (js_str_esc_iter_long_items ["a'b"; "cd"]).
  repeat constructor; vm_compute; lia.
Defined.

(** ** The metadata parser, continued *)

Lemma value_then_closer_sound (s v : string) :
  Re.value_then_closer s = Some v ->
  (s = v +:+ " -->" \/ s = v +:+ " -->" +:+ chr LF) /\
  has_char LF v = false.
Proof.
  revert v. induction s as [|c s IH]; intros v.
  - done.
  - cbn [Re.value_then_closer].
    destruct (Re.closer_at_end (String c s)) eqn:Hc.
    + intros [= <-]. split; [|done].
      unfold Re.closer_at_end in Hc.
      apply orb_true_iff in Hc as [H|H]; apply String.eqb_eq in H;
        rewrite H; [by left|by right].
    + destruct (Re.is_dot c) eqn:Hd; [|done].
      destruct (Re.value_then_closer s) as [v'|]; [|done].
      intros [= <-]. destruct (IH v' eq_refl) as [Hs Hv].
      split.
      * rewrite !append_cons. destruct Hs as [-> | ->]; [by left|by right].
      * cbn [has_char]. rewrite Hv, orb_false_r.
        unfold Re.is_dot in Hd. apply negb_true_iff in Hd.
        by rewrite Ascii.eqb_sym.
Qed.

Lemma name_then_rest_sound (s n v : string) :
  Re.name_then_rest s = Some (n, v) ->
  exists tail,
    s = n +:+ " " +:+ tail /\ all_word n = true /\
    Re.value_then_closer tail = Some v.
Proof.
  revert n. induction s as [|c s IH]; intros n.
  - done.
  - cbn [Re.name_then_rest].
    destruct (Re.space_then_value (String c s)) as [v'|] eqn:Hsp.
    + intros [= <- <-]. exists s. cbn [Re.space_then_value] in Hsp.
      destruct (Ascii.eqb_spec c SPACE) as [->|]; [|done].
      by rewrite append_nil_l.
    + destruct (Re.is_word c) eqn:Hw; [|done].
      destruct (Re.name_then_rest s) as [[n' v']|]; [|done].
      intros [= <- <-]. destruct (IH n' eq_refl) as (tail & -> & Hn & Hv).
      exists tail. rewrite append_cons. cbn [all_word]. by rewrite Hw, Hn.
Qed.

Lemma match_property_groups (line name value : string) :
  Re.match_property line = Some (name, value) ->
  (line = comment_line name value \/
   line = comment_line name value +:+ chr LF) /\
  all_word name = true /\
  has_char LF value = false.
Proof.
  unfold Re.match_property.
  destruct (Py.strip_prefix "<!-- " line) as [rest|] eqn:Hp; [|done].
  apply strip_prefix_Some in Hp as ->.
  intros (tail & -> & Hn & Hv)%name_then_rest_sound.
  apply value_then_closer_sound in Hv as [Hs Hv].
  repeat split; try done. unfold comment_line.
  destruct Hs as [-> | ->]; [by left|right].
  by rewrite !append_assoc.
Qed.

(** X7.  A line matches the pattern only if it is the comment opener,
    a run of word characters, one space, a value without line feed and
    the comment closer, optionally followed by one line feed; the two
    groups are that run and that value. *)
Theorem match_property_sound (line name value : string) :
  Re.match_property line = Some (name, value) ->
  (line = comment_line name value \/
   line = comment_line name value +:+ chr LF) /\
  all_word name = true /\
  has_char LF value = false.
Proof. apply match_property_groups. Qed.

Lemma match_property_sound_witness :
  ("<!-- name my widget -->" = comment_line "name" "my widget" \/
   "<!-- name my widget -->" = comment_line "name" "my widget" +:+ chr LF) /\
  all_word "name" = true /\
  has_char LF "my widget" = false.
Proof.
  apply (match_property_sound "<!-- name my widget -->" "name" "my widget").
  vm_compute. reflexivity.
Defined.

Lemma closer_at_end_cons (c : ascii) (v : string) :
  Re.closer_at_end (String c v +:+ " -->") = false.
Proof.
  unfold Re.closer_at_end. apply orb_false_iff. split.
  - apply String.eqb_neq. intros H%(f_equal String.length).
    rewrite length_append in H. simpl in H. lia.
  - destruct v as [|d v].
    + rewrite append_cons, append_nil_l. unfold chr. simpl.
      by destruct (Ascii.eqb c " ").
    + apply String.eqb_neq. intros H%(f_equal String.length).
      rewrite length_append in H. simpl in H. lia.
Qed.

Lemma value_then_closer_complete (v : string) :
  has_char LF v = false -> Re.value_then_closer (v +:+ " -->") = Some v.
Proof.
  induction v as [|c v IH]; [done|].
  cbn [has_char]. intros [Hc Hv]%orb_false_elim.
  pose proof (closer_at_end_cons c v) as Hclose.
  rewrite append_cons in Hclose |- *. cbn [Re.value_then_closer].
  rewrite Hclose. unfold Re.is_dot. rewrite Ascii.eqb_sym, Hc. simpl.
  by rewrite (IH Hv).
Qed.

Lemma is_word_not_space (c : ascii) :
  Re.is_word c = true -> Ascii.eqb c SPACE = false.
Proof.
  intros H. destruct (Ascii.eqb_spec c SPACE) as [->|]; [|done].
  vm_compute in H. done.
Qed.

Lemma name_then_rest_complete (n v : string) :
  all_word n = true -> has_char LF v = false ->
  Re.name_then_rest (n +:+ " " +:+ v +:+ " -->") = Some (n, v).
Proof.
  intros Hn Hv. induction n as [|c n IH].
  - rewrite append_nil_l.
    change (" " +:+ v +:+ " -->") with (String SPACE (v +:+ " -->")).
    cbn [Re.name_then_rest Re.space_then_value].
    by rewrite Ascii.eqb_refl, value_then_closer_complete.
  - cbn [all_word] in Hn. apply andb_true_iff in Hn as [Hc Hn].
    rewrite append_cons. cbn [Re.name_then_rest Re.space_then_value].
    by rewrite (is_word_not_space _ Hc), Hc, (IH Hn).
Qed.

(** X8.  Writing a property as a comment line and matching the line
    gives the property back, for every name made of word characters
    (the empty name too) and every value without line feed. *)
Theorem match_property_complete (name value : string) :
  all_word name = true -> has_char LF value = false ->
  Re.match_property (comment_line name value) = Some (name, value).
Proof.
  intros Hn Hv. unfold Re.match_property, comment_line.
  rewrite strip_prefix_app. by apply name_then_rest_complete.
Qed.

Lemma match_property_complete_witness :
  Re.match_property (comment_line "name" "a --> b") = Some ("name", "a --> b").
Proof.
  apply (match_property_complete "name" "a --> b"); vm_compute; reflexivity.
Defined.

Lemma add_property_invariant (P : string -> string -> Prop)
    (lines : list string) (m : gmap string string) :
  (forall line n v, Re.match_property line = Some (n, v) -> P n v) ->
  (forall n v, m !! n = Some v -> P n v) ->
  forall n v, foldl add_property m lines !! n = Some v -> P n v.
Proof.
  intros Hmatch. revert m. induction lines as [|line lines IH]; intros m Hm.
  - done.
  - simpl. apply IH. intros n v. unfold add_property.
    destruct (Re.match_property line) as [[n' v']|] eqn:E; [|apply Hm].
    destruct (decide (n' = n)) as [->|Hne].
    + rewrite lookup_insert_eq. intros [= <-]. by eapply Hmatch.
    + rewrite lookup_insert_ne by done. apply Hm.
Qed.

(** X9.  Whatever the text, every property name that the parser
    returns is made of word characters only, and no value contains a
    line feed. *)
Theorem parse_properties_well_formed (src name value : string) :
  parse_properties src !! name = Some value ->
  all_word name = true /\ has_char LF value = false.
Proof.
  unfold parse_properties.
  apply (add_property_invariant
           (fun n v => all_word n = true /\ has_char LF v = false)).
  - intros line n v H. by destruct (match_property_groups _ _ _ H) as (_ & ? & ?).
  - intros n v. by rewrite lookup_empty.
Qed.

Lemma parse_properties_well_formed_witness :
  all_word "name" = true /\ has_char LF "my-widget" = false.
Proof.
  apply (parse_properties_well_formed "<!-- name my-widget -->").
  vm_compute. reflexivity.
Defined.

Lemma split_lf_go_cons (c : ascii) (s : string) :
  Py.split_go (chr LF) None 0 (String c s) =
  if Ascii.eqb LF c
  then (EmptyString,
        fst (Py.split_go (chr LF) None 0 s)
        :: snd (Py.split_go (chr LF) None 0 s))
  else (String c (fst (Py.split_go (chr LF) None 0 s)),
        snd (Py.split_go (chr LF) None 0 s)).
Proof.
  cbn [Py.split_go Py.may_split Py.one_less andb].
  unfold Py.startswith, chr. cbn [Py.strip_prefix String.length pred].
  destruct (Ascii.eqb LF c); by destruct (Py.split_go _ None 0 s).
Qed.

Lemma split_unfold (sep : string) (n : option nat) (s : string) :
  Py.split sep n s =
  fst (Py.split_go sep n 0 s) :: snd (Py.split_go sep n 0 s).
Proof. unfold Py.split. by destruct (Py.split_go sep n 0 s). Qed.

(** Splitting into lines goes through a line feed. *)
Lemma split_lf_app (a b : string) :
  Py.split (chr LF) None (a +:+ String LF b) =
  Py.split (chr LF) None a ++ Py.split (chr LF) None b.
Proof.
  rewrite !split_unfold. induction a as [|c a IH].
  - rewrite append_nil_l, split_lf_go_cons, Ascii.eqb_refl. reflexivity.
  - rewrite append_cons, !split_lf_go_cons.
    cbn [fst snd app] in IH. injection IH as H1 H2.
    destruct (Ascii.eqb LF c); cbn [fst snd app]; by rewrite H1, H2.
Qed.

Lemma split_lf_line (line : string) :
  has_char LF line = false -> Py.split (chr LF) None line = [line].
Proof.
  rewrite split_unfold. induction line as [|c line IH]; [done|].
  cbn [has_char]. intros [Hc Hl]%orb_false_elim.
  rewrite split_lf_go_cons, Hc. specialize (IH Hl).
  injection IH as H1 H2. cbn [fst snd]. by rewrite H1, H2.
Qed.

Lemma contains_append_false (sub a b : string) :
  contains sub (a +:+ b) = false -> contains sub a = false.
Proof.
  intros H. destruct (contains sub a) eqn:E; [|done].
  apply contains_occurs in E as (x & y & ->).
  assert (contains sub ((x +:+ sub +:+ y) +:+ b) = true) as H'; [|congruence].
  apply contains_occurs. exists x, (y +:+ b). by rewrite !append_assoc.
Qed.

(** X10.  In a header without blank line, the last line acts on the
    properties of the lines before it: a matching line sets its name
    to its value, replacing an earlier value of that name; any other
    line changes nothing. *)
Theorem parse_properties_last_line (before line : string) :
  contains blank_line (before +:+ chr LF +:+ line) = false ->
  has_char LF line = false ->
  parse_properties (before +:+ chr LF +:+ line) =
  match Re.match_property line with
  | Some (name, value) => <[name := value]> (parse_properties before)
  | None => parse_properties before
  end.
Proof.
  intros Hblank Hline.
  rewrite (parse_properties_no_blank_line _ Hblank).
  rewrite (parse_properties_no_blank_line _ (contains_append_false _ _ _ Hblank)).
  change (chr LF +:+ line) with (String LF line).
  by rewrite split_lf_app, foldl_app, (split_lf_line _ Hline).
Qed.

Lemma parse_properties_last_line_witness :
  parse_properties
    ("<!-- name first -->" +:+ chr LF +:+ "<!-- name second -->") =
  <["name" := "second"]> (parse_properties "<!-- name first -->").
Proof.
  apply (parse_properties_last_line "<!-- name first -->"
           "<!-- name second -->"); vm_compute; reflexivity.
Defined.

(** ** Computations that do not look at the world *)

Lemma advance_nil (w : world) : advance w EmptyString [] = w.
Proof. destruct w. unfold advance. simpl. by rewrite append_nil_r, app_nil_r. Qed.

Lemma advance_advance (w : world) (a b : string) (c d : list string) :
  advance (advance w a c) b d = advance w (a +:+ b) (c ++ d).
Proof. unfold advance. simpl. by rewrite append_assoc, app_assoc. Qed.

Lemma emit_advance (w : world) (text : string) : emit w text = advance w text [].
Proof. unfold emit, advance. by rewrite app_nil_r. Qed.

Lemma called_advance (w : world) (style : string) :
  called w style = advance w EmptyString [style].
Proof. unfold called, advance. by rewrite append_nil_r. Qed.

Lemma uniform_ret {A : Type} (a : A) : uniform (ret a).
Proof. exists (inr a), EmptyString, []. intros w. by rewrite advance_nil. Qed.

Lemma uniform_raise {A : Type} (e : exn) : uniform (raise e : M A).
Proof. exists (inl e), EmptyString, []. intros w. by rewrite advance_nil. Qed.

Lemma uniform_writes (m : M unit) (text : string) : writes m text -> uniform m.
Proof.
  intros H. exists (inr tt), text, []. intros w. by rewrite H, emit_advance.
Qed.

Lemma uniform_out (t : list string) : uniform (out t).
Proof. apply (uniform_writes _ _ (writes_out t)). Qed.

Lemma uniform_bind {A B : Type} (m : M A) (k : A -> M B) :
  uniform m -> (forall a, uniform (k a)) -> uniform (bind m k).
Proof.
  intros ([e|a] & t1 & c1 & Hm) Hk.
  - exists (inl e), t1, c1. intros w. by rewrite run_bind, Hm.
  - destruct (Hk a) as (r & t2 & c2 & Hr).
    exists r, (t1 +:+ t2), (c1 ++ c2). intros w.
    by rewrite run_bind, Hm, Hr, advance_advance.
Qed.

Lemma uniform_for_ {A : Type} (l : list A) (body : A -> M unit) :
  (forall x, uniform (body x)) -> uniform (for_ l body).
Proof.
  intros Hb. induction l as [|x l IH]; simpl.
  - apply uniform_ret.
  - by apply uniform_bind.
Qed.

Lemma uniform_for_acc {A S : Type} (l : list A) (body : S -> A -> M S) :
  (forall acc x, uniform (body acc x)) ->
  forall acc, uniform (for_acc l acc body).
Proof.
  intros Hb. induction l as [|x l IH]; intros acc; simpl.
  - apply uniform_ret.
  - apply uniform_bind; [apply Hb|apply IH].
Qed.

Lemma uniform_tag_item (t : node) (key : string) : uniform (tag_item t key).
Proof.
  unfold tag_item. destruct (Soup.get key (Soup.attrs_of t));
    [apply uniform_ret|apply uniform_raise].
Qed.

Lemma uniform_as_str (v : attr_value) : uniform (as_str v).
Proof. destruct v; [apply uniform_ret|apply uniform_raise]. Qed.

Lemma uniform_sassc (available : bool)
    (run : string -> option CompletedProcess) (style : string) :
  uniform (sassc available run style).
Proof.
  exists (sassc_result available run style), EmptyString, [style].
  intros w. by rewrite sassc_run, called_advance.
Qed.

(** What a uniform computation does from any world. *)
Lemma uniform_run {A : Type} (m : M A) (w : world) :
  uniform m -> m w = (result_of m, advance w (written m) (calls_of m)).
Proof.
  intros (r & t & c & H). unfold result_of, written, calls_of.
  by rewrite !H.
Qed.

Ltac uniform_step :=
  first
    [ apply uniform_ret
    | apply uniform_raise
    | apply uniform_out
    | apply uniform_tag_item
    | apply uniform_as_str
    | apply uniform_sassc
    | apply (uniform_writes _ _ (html2js_writes _))
    | apply uniform_bind; [|intros ?]
    | apply uniform_for_; intros ?
    | apply uniform_for_acc; intros ? ?
    | match goal with
      | |- uniform (match ?x with Some _ => _ | None => _ end) => destruct x
      | |- uniform (match ?x with [] => _ | _ :: _ => _ end) => destruct x
      | |- uniform (match ?x with inl _ => _ | inr _ => _ end) => destruct x
      | |- uniform (if ?b then _ else _) => destruct b
      end ].

Lemma uniform_compile (decode_contents : node -> string) (available : bool)
    (run : string -> option CompletedProcess) (src : string) (soup : node) :
  uniform (compile decode_contents available run src soup).
Proof.
  unfold compile, assert_, index0, dict_item, out_bodies, gather_attributes.
  repeat uniform_step.
Qed.


(** ** The style preprocessor, continued *)

Lemma strip_strip (s : string) : Py.strip (Py.strip s) = Py.strip s.
Proof.
  assert (head_ok (Py.strip s) = true) as H1
    by apply head_ok_rstrip, head_ok_lstrip.
  assert (last_ok (Py.strip s) = true) as H2 by apply last_ok_rstrip.
  unfold Py.strip at 1. by rewrite lstrip_head_ok, rstrip_last_ok.
Qed.

(** X12.  Whatever [sassc] returns, with or without the executable, is
    trimmed: it neither starts nor ends with white space. *)
Theorem sassc_result_trimmed (available : bool)
    (run : string -> option CompletedProcess) (style css : string) :
  sassc_result available run style = inr css ->
  Py.strip css = css /\ head_ok css = true /\ last_ok css = true.
Proof.
  unfold sassc_result, sassc. intros H.
  assert (exists text, css = Py.strip text) as [text ->].
  { destruct available.
    - unfold sassc_external in H. rewrite run_bind in H. simpl in H.
      destruct (run style) as [res|]; [|done].
      destruct (stdout_decoded res) as [text|]; [|done].
      simpl in H. exists text. congruence.
    - simpl in H. exists style. congruence. }
  split; [apply strip_strip|]. split.
  - apply head_ok_rstrip, head_ok_lstrip.
  - apply last_ok_rstrip.
Qed.

Lemma sassc_result_trimmed_witness :
  Py.strip "a{}" = "a{}" /\ head_ok "a{}" = true /\ last_ok "a{}" = true.
Proof.
  apply (sassc_result_trimmed false Sample.cannot_start " a{} " "a{}").
  reflexivity.
Defined.

(** ** The script *)

Section MainProperties.

Variable decode_contents : node -> string.
Variable BeautifulSoup : string -> node.
Variable probe : option CompletedProcess.
Variable run_sassc : string -> option CompletedProcess.
Variable read_file : string -> exn + string.

Local Abbreviation compile_text :=
  (Main.compile_text decode_contents BeautifulSoup probe run_sassc).
Local Abbreviation main :=
  (Main.main decode_contents BeautifulSoup probe run_sassc read_file).

(** X13.  When the probe of the executable raises, or exits with a
    status other than zero, [sassc] is the fallback: it never fails,
    returns its argument trimmed, and no document's compilation depends
    on what running the executable would do. *)
Theorem probe_failure_falls_back
    (run' : string -> option CompletedProcess) :
  probe = None \/ (exists res, probe = Some res /\ returncode res <> 0%Z) ->
  Main.sassc_available probe = false /\
  (forall style w,
     sassc (Main.sassc_available probe) run_sassc style w =
     (inr (Py.strip style), called w style)) /\
  (forall src w,
     compile_text src w =
     Main.compile_text decode_contents BeautifulSoup probe run' src w).
Proof.
  intros H.
  assert (Main.sassc_available probe = false) as E.
  { destruct H as [->|(res & -> & Hr)]; [done|].
    simpl. by apply Z.eqb_neq. }
  split; [done|]. split.
  - intros style w. by rewrite E.
  - intros src w. unfold Main.compile_text. by rewrite E.
Qed.

Lemma for_all_succeed {A : Type} (l : list A) (body : A -> M unit)
    (w : world) :
  (forall x, uniform (body x)) ->
  Forall (fun x => result_of (body x) = inr tt) l ->
  for_ l body w =
  (inr tt,
   advance w (cat (fun x => written (body x)) l)
     (concat ((fun x => calls_of (body x)) <$> l))).
Proof.
  intros Hu H. revert w. induction H as [|x l Hx Hl IH]; intros w.
  - simpl. by rewrite advance_nil.
  - cbn [for_]. rewrite run_bind, (uniform_run _ _ (Hu x)), Hx, IH.
    by rewrite advance_advance.
Qed.

Lemma for_first_failure {A : Type} (good later : list A) (bad : A)
    (body : A -> M unit) (e : exn) (w : world) :
  (forall x, uniform (body x)) ->
  Forall (fun x => result_of (body x) = inr tt) good ->
  result_of (body bad) = inl e ->
  for_ (good ++ bad :: later) body w =
  (inl e,
   advance w (cat (fun x => written (body x)) good +:+ written (body bad))
     (concat ((fun x => calls_of (body x)) <$> good) ++ calls_of (body bad))).
Proof.
  intros Hu H Hbad. revert w. induction H as [|x l Hx Hl IH]; intros w.
  - cbn [app for_]. rewrite run_bind, (uniform_run _ _ (Hu bad)), Hbad.
    reflexivity.
  - cbn [app for_]. rewrite run_bind, (uniform_run _ _ (Hu x)), Hx, IH.
    rewrite advance_advance, cat_cons, append_assoc, fmap_cons.
    cbn [concat]. by rewrite (assoc_L (++)).
Qed.

Lemma uniform_file_job (p : string) :
  uniform (text <- Main.read read_file p ;; compile_text text).
Proof.
  apply uniform_bind.
  - unfold Main.read. destruct (read_file p);
      [apply uniform_raise|apply uniform_ret].
  - intros text. apply uniform_compile.
Qed.

Lemma file_job_readable (p text : string) (w : world) :
  read_file p = inr text ->
  (text <- Main.read read_file p ;; compile_text text) w = compile_text text w.
Proof. intros H. rewrite run_bind. unfold Main.read. by rewrite H. Qed.

Lemma file_jobs_readable (paths texts : list string) :
  Forall2 (fun p text => read_file p = inr text) paths texts ->
  Forall (fun text => result_of (compile_text text) = inr tt) texts ->
  Forall (fun p =>
            result_of (text <- Main.read read_file p ;; compile_text text)
            = inr tt) paths /\
  cat (fun p => written (text <- Main.read read_file p ;; compile_text text))
    paths = cat (fun text => written (compile_text text)) texts.
Proof.
  induction 1 as [|p text paths texts Hp Hrest IH].
  - intros _. by split.
  - intros [Ht Hts]%Forall_cons. destruct (IH Hts) as [IH1 IH2]. split.
    + constructor; [|done]. unfold result_of.
      by rewrite (file_job_readable _ _ _ Hp).
    + rewrite !cat_cons, IH2. f_equal. unfold written.
      by rewrite (file_job_readable _ _ _ Hp).
Qed.

(** X14.  When every file named on the command line can be read and
    compiles, the script succeeds and prints the helper once, followed
    by the classes of the documents in the order of the arguments. *)
Theorem main_all_succeed (program : string) (paths texts : list string)
    (w : world) :
  Forall2 (fun p text => read_file p = inr text) paths texts ->
  Forall (fun text => result_of (compile_text text) = inr tt) texts ->
  fst (main (program :: paths) w) = inr tt /\
  stdout (snd (main (program :: paths) w)) =
    stdout w +:+ Main.helper +:+
    cat (fun text => written (compile_text text)) texts.
Proof.
  intros Hread Hok. destruct (file_jobs_readable _ _ Hread Hok) as [H1 H2].
  unfold Main.main. cbn [drop]. rewrite ?drop_0, run_bind, run_out, join_singleton.
  rewrite (for_all_succeed _ _ _ uniform_file_job H1), H2.
  split; [done|]. simpl. by rewrite append_assoc.
Qed.

(** X15.  The first file that cannot be read, or whose compilation
    raises, ends the script with that error.  What was printed stays:
    the helper, the classes of the files before it, and whatever the
    failing compilation had printed.  The files after it are not
    touched. *)
Theorem main_stops_at_first_failure (program bad : string)
    (good later texts : list string) (partial : string) (e : exn)
    (w : world) :
  Forall2 (fun p text => read_file p = inr text) good texts ->
  Forall (fun text => result_of (compile_text text) = inr tt) texts ->
  (read_file bad = inl e /\ partial = EmptyString) \/
  (exists text,
     read_file bad = inr text /\
     result_of (compile_text text) = inl e /\
     partial = written (compile_text text)) ->
  fst (main (program :: good ++ bad :: later) w) = inl e /\
  stdout (snd (main (program :: good ++ bad :: later) w)) =
    stdout w +:+ Main.helper +:+
    cat (fun text => written (compile_text text)) texts +:+ partial.
Proof.
  intros Hread Hok Hbad.
  destruct (file_jobs_readable _ _ Hread Hok) as [H1 H2].
  assert (result_of (text <- Main.read read_file bad ;; compile_text text)
          = inl e /\
          written (text <- Main.read read_file bad ;; compile_text text)
          = partial) as [Hr Hw].
  { destruct Hbad as [[Hb ->]|(text & Hb & Hres & ->)].
    - unfold result_of, written. rewrite !run_bind. unfold Main.read.
      by rewrite Hb.
    - unfold result_of, written.
      by rewrite !(file_job_readable _ _ _ Hb). }
  unfold Main.main. cbn [drop]. rewrite ?drop_0, run_bind, run_out, join_singleton.
  rewrite (for_first_failure _ _ _ _ _ _ uniform_file_job H1 Hr), H2, Hw.
  split; [done|]. simpl. by rewrite !append_assoc.
Qed.

End MainProperties.

Lemma probe_failure_falls_back_witness :
  Main.sassc_available None = false.
Proof.
  apply (proj1 (probe_failure_falls_back Sample.text_contents SampleRun.parse
                  None Sample.cannot_start Sample.exits_with_1
                  (or_introl eq_refl))).
Defined.

Lemma main_all_succeed_witness :
  fst (Main.main Sample.text_contents SampleRun.parse None Sample.cannot_start
         SampleRun.read_file ["compile.py"; "a.html"] Sample.start) = inr tt /\
  stdout (snd (Main.main Sample.text_contents SampleRun.parse None
                 Sample.cannot_start SampleRun.read_file
                 ["compile.py"; "a.html"] Sample.start)) =
    stdout Sample.start +:+ Main.helper +:+
    cat (fun text =>
           written (Main.compile_text Sample.text_contents SampleRun.parse
                      None Sample.cannot_start text)) [Sample.src].
Proof.
  apply (main_all_succeed Sample.text_contents SampleRun.parse None
           Sample.cannot_start SampleRun.read_file "compile.py" ["a.html"]
           [Sample.src] Sample.start).
  - repeat constructor.
  - repeat constructor.
Defined.

Lemma main_stops_at_first_failure_witness :
  fst (Main.main Sample.text_contents SampleRun.parse None Sample.cannot_start
         SampleRun.read_file ["compile.py"; "a.html"; "missing.html"; "a.html"]
         Sample.start) = inl OSError /\
  stdout (snd (Main.main Sample.text_contents SampleRun.parse None
                 Sample.cannot_start SampleRun.read_file
                 ["compile.py"; "a.html"; "missing.html"; "a.html"]
                 Sample.start)) =
    stdout Sample.start +:+ Main.helper +:+
    cat (fun text =>
           written (Main.compile_text Sample.text_contents SampleRun.parse
                      None Sample.cannot_start text)) [Sample.src] +:+
    EmptyString.
Proof.
  apply (main_stops_at_first_failure Sample.text_contents SampleRun.parse None
           Sample.cannot_start SampleRun.read_file "compile.py" "missing.html"
           ["a.html"] ["a.html"] [Sample.src] EmptyString OSError
           Sample.start).
  - repeat constructor.
  - repeat constructor.
  - left. split; reflexivity.
Defined.

(** ** The class assembler, continued *)

Section MembersProperties.

Variable decode_contents : node -> string.
Variable sassc_available : bool.
Variable run_sassc : string -> option CompletedProcess.

Local Abbreviation compile := (compile decode_contents sassc_available run_sassc).
Local Abbreviation compile_from :=
  (compile_from decode_contents sassc_available run_sassc).
Local Abbreviation sassc_result := (sassc_result sassc_available run_sassc).
Local Abbreviation gather_style := (gather_style decode_contents).
Local Abbreviation out_bodies := (out_bodies decode_contents).
Local Abbreviation emit_members := (emit_members decode_contents).
Local Abbreviation bodies_text := (bodies_text decode_contents).
Local Abbreviation members_text := (members_text decode_contents).
Local Abbreviation hook_text := (hook_text decode_contents).

(** X16.  A document with one template and well-formed attr scripts
    but without the property [name] stops on [KeyError] for that key,
    before anything is printed. *)
Theorem compile_missing_name (src : string) (soup tpl : node)
    (attributes : gset string) (w : world) :
  Soup.find_all "template" None soup = [tpl] ->
  attributes_of soup = inr attributes ->
  parse_properties src !! "name" = None ->
  compile src soup w = (inl (KeyError "name"), w).
Proof.
  intros Ht Ha Hn.
  rewrite (compile_with_template _ _ _ _ _ _ _ Ht), compile_from_run.
  by rewrite Ha, Hn.
Qed.

Lemma gather_loop_missing (l : list node) (acc : gset string) (w : world) :
  Forall (fun s => Soup.get "attr" (Soup.attrs_of s) = None \/
                   has_string "attr" s) l ->
  Exists (fun s => Soup.get "attr" (Soup.attrs_of s) = None) l ->
  for_acc l acc
    (fun attributes s =>
       v <- tag_item s "attr" ;;
       a <- as_str v ;;
       ret (attributes ∪ {[a]})) w = (inl (KeyError "attr"), w).
Proof.
  intros Hall. revert acc. induction Hall as [|s l Hs Hl IH]; intros acc Hex.
  - by apply Exists_nil in Hex.
  - cbn [for_acc]. rewrite !run_bind. unfold tag_item.
    destruct Hs as [Hs|[a Hs]]; rewrite Hs; [done|].
    cbn [ret as_str]. rewrite !run_bind. cbn [ret].
    apply IH. apply Exists_cons in Hex as [Hex|Hex]; [congruence|done].
Qed.

(** X17.  When every attr script has a string under [attr] or nothing
    at all, and at least one has nothing, a document with one template
    stops on [KeyError] for that key before anything is printed,
    whether or not the property [name] is there. *)
Theorem compile_attr_script_without_attr (src : string) (soup tpl : node)
    (w : world) :
  Soup.find_all "template" None soup = [tpl] ->
  Forall (fun s => Soup.get "attr" (Soup.attrs_of s) = None \/
                   has_string "attr" s) (scripts "attr" soup) ->
  Exists (fun s => Soup.get "attr" (Soup.attrs_of s) = None)
    (scripts "attr" soup) ->
  compile src soup w = (inl (KeyError "attr"), w).
Proof.
  intros Ht Hall Hex.
  rewrite (compile_with_template _ _ _ _ _ _ _ Ht), compile_from_run.
  unfold attributes_of, gather_attributes.
  by rewrite (gather_loop_missing _ _ _ Hall Hex).
Qed.

(** The two lifecycle hooks. *)
Lemma hook_writes (opening role : string) (soup : node) :
  writes
    (match Soup.find "script" (Some ("event", role)) soup with
     | Some _ => out [opening] ;; out_bodies role soup ;; out ["}"]
     | None => ret tt
     end)
    (hook_text opening role soup).
Proof.
  change (Soup.find "script" (Some ("event", role)) soup)
    with (head (scripts role soup)).
  unfold hook_text. destruct (scripts role soup) as [|s l]; cbn [head].
  - apply writes_ret.
  - apply writes_bind; [apply writes_out1|].
    apply writes_bind; [apply out_bodies_writes|apply writes_out1].
Qed.

Lemma run_bind_out {B : Type} (t : list string) (k : unit -> M B)
    (w : world) :
  bind (out t) k w = k tt (emit w (Py.join t)).
Proof. reflexivity. Qed.

Ltac run_outs := repeat (rewrite run_bind_out; cbv beta).

Lemma join3 (a b c : string) : Py.join [a; b; c] = a +:+ b +:+ c.
Proof. unfold Py.join. simpl. by rewrite append_nil_r. Qed.

(** The loops over the getters and over the setters: a loop that
    succeeds went through scripts that all have a string under [name],
    and printed one accessor for each. *)
Lemma accessor_loop (kw params : string) (l : list node) (w w' : world) :
  for_ l (fun s =>
    v <- tag_item s "name" ;;
    n <- as_str v ;;
    out [kw; n; params] ;;
    out [decode_contents s] ;;
    out ["}"]) w = (inr tt, w') ->
  Forall (has_string "name") l /\
  w' = emit w
         (cat (fun s => (kw +:+ attr_string "name" s +:+ params) +:+
                        decode_contents s +:+ "}") l).
Proof.
  revert w. induction l as [|s l IH]; intros w.
  - intros [= <-]. split; [constructor|]. by rewrite emit_nil.
  - cbn [for_]. rewrite run_bind, run_bind. unfold tag_item.
    destruct (Soup.get "name" (Soup.attrs_of s)) as [[n|l0]|] eqn:Hg;
      try done.
    cbn [ret]. rewrite run_bind. cbn [ret as_str]. run_outs.
    rewrite join3, !join_singleton, !emit_emit.
    intros [Hall ->]%IH. split.
    + constructor; [by exists n|done].
    + unfold emit. cbn [stdout sassc_calls]. f_equal.
      rewrite cat_cons. unfold attr_string. rewrite Hg.
      by rewrite !append_assoc.
Qed.

(** A loop that meets a script without [name] first stops there. *)
Lemma accessor_loop_missing (kw params : string) (s : node) (l : list node)
    (w : world) :
  Soup.get "name" (Soup.attrs_of s) = None ->
  for_ (s :: l) (fun s =>
    v <- tag_item s "name" ;;
    n <- as_str v ;;
    out [kw; n; params] ;;
    out [decode_contents s] ;;
    out ["}"]) w = (inl (KeyError "name"), w).
Proof.
  intros H. cbn [for_]. rewrite !run_bind. unfold tag_item. by rewrite H.
Qed.

(** The loop over the attr scripts in the callback. *)
Lemma branches_write (l : list node) :
  Forall (has_string "attr") l ->
  writes
    (for_ l (fun s =>
       v <- tag_item s "attr" ;;
       out ["if (__attrName === '"; js_str_esc_value v; "'){"] ;;
       out [decode_contents s] ;;
       out ["}"]))
    (cat (branch_text decode_contents) l).
Proof.
  intros H. apply writes_for_. eapply Forall_impl; [exact H|].
  intros s [a Ha] w. rewrite run_bind. unfold tag_item. rewrite Ha.
  cbn [ret]. run_outs. rewrite run_out, join3, !join_singleton.
  rewrite !emit_emit. unfold branch_text, attr_string. rewrite Ha.
  by rewrite !append_assoc.
Qed.

(** The set of attribute names is empty exactly when there is no attr
    script. *)
Lemma attributes_empty_iff (soup : node) (attributes : gset string) :
  attributes_of soup = inr attributes ->
  attributes = ∅ <-> scripts "attr" soup = [].
Proof.
  intros [Hall Hmem]%attributes_of_spec. split.
  - intros ->. destruct (scripts "attr" soup) as [|s l]; [done|].
    apply Forall_cons in Hall as [[a Ha] _].
    assert (a ∈ (∅ : gset string)) as Hin.
    { apply Hmem. exists s. split; [apply list_elem_of_here|done]. }
    by apply not_elem_of_empty in Hin.
  - intros E. rewrite E in Hmem. apply set_eq. intros a.
    rewrite Hmem. split.
    + intros (s & Hs & _). by apply elem_of_nil in Hs.
    + intros H. by apply not_elem_of_empty in H.
Qed.

(** The members after the observed attributes, when all goes well. *)
Lemma emit_members_success (soup : node) (attributes : gset string)
    (w w' : world) :
  attributes_of soup = inr attributes ->
  emit_members attributes soup w = (inr tt, w') ->
  Forall (has_string "name") (scripts "getter" soup) /\
  Forall (has_string "name") (scripts "setter" soup) /\
  w' = emit w (members_text soup).
Proof.
  intros Ha. unfold emit_members.
  rewrite (writes_run _ _ _ _ (hook_writes "connectedCallback(){" "connected" soup)).
  rewrite (writes_run _ _ _ _
             (hook_writes "disconnectedCallback(){" "disconnected" soup)).
  rewrite run_bind.
  destruct (for_ (scripts "getter" soup) _ _) as [[e|[]] w1] eqn:Eg; [done|].
  apply accessor_loop in Eg as [Hg ->].
  rewrite run_bind.
  destruct (for_ (scripts "setter" soup) _ _) as [[e|[]] w2] eqn:Es; [done|].
  apply accessor_loop in Es as [Hs ->].
  assert (writes
    (if bool_decide (attributes ≠ ∅) then
       out ["attributeChangedCallback(__attrName, oldValue, value){"] ;;
       for_ (scripts "attr" soup) (fun s =>
         v <- tag_item s "attr" ;;
         out ["if (__attrName === '"; js_str_esc_value v; "'){"] ;;
         out [decode_contents s] ;;
         out ["}"]) ;;
       out ["}"]
     else ret tt) (callback_text decode_contents soup)) as Hcb.
  { pose proof (attributes_empty_iff _ _ Ha) as Hiff.
    destruct (attributes_of_spec _ _ Ha) as [Hall _].
    unfold callback_text. case_bool_decide as Hne.
    - destruct (scripts "attr" soup) as [|s l] eqn:El.
      { exfalso. apply Hne. by apply Hiff. }
      rewrite <- El in *.
      apply writes_bind; [apply writes_out1|].
      apply writes_bind; [by apply branches_write|apply writes_out1].
    - destruct (scripts "attr" soup) as [|s l] eqn:El; [apply writes_ret|].
      by apply Hiff in Hne. }
  rewrite (writes_run _ _ _ _ Hcb), run_out, join_singleton.
  intros [= <-]. repeat split; try done.
  unfold members_text, getter_text, setter_text.
  by rewrite !emit_emit, ?append_assoc.
Qed.

(** X18.  The whole output of a successful run: the opening, the
    style construction if any, the rest of the constructor with the
    observed attributes, then the connected hook and the disconnected
    hook, each present exactly when a script of that role exists and
    holding the bodies of these scripts in document order, one read
    accessor per getter script, one write accessor per setter script,
    the attribute callback with one branch per attr script exactly when
    there is an attr script, and the end of the registration.  In such
    a run every getter and setter script has a string under [name], and
    every attr script one under [attr]. *)
Theorem compile_full_output (src : string) (soup : node) (w w' : world) :
  compile src soup w = (inr tt, w') ->
  exists tpl attributes name style_out,
    Soup.find_all "template" None soup = [tpl] /\
    attributes_of soup = inr attributes /\
    parse_properties src !! "name" = Some name /\
    (if nonempty (gather_style soup)
     then exists css,
            sassc_result (gather_style soup) = inr css /\
            style_out = style_text css
     else style_out = EmptyString) /\
    Forall (has_string "name") (scripts "getter" soup) /\
    Forall (has_string "name") (scripts "setter" soup) /\
    Forall (has_string "attr") (scripts "attr" soup) /\
    (attributes = ∅ <-> scripts "attr" soup = []) /\
    stdout w' =
      stdout w +:+ opening_text name +:+ style_out +:+
      constructor_rest decode_contents tpl soup attributes +:+
      members_text soup.
Proof.
  intros Hrun.
  destruct (decide (length (Soup.find_all "template" None soup) = 1))
    as [Hlen|Hlen].
  2:{ by rewrite (compile_assertion _ _ _ _ _ _ Hlen) in Hrun. }
  destruct (Soup.find_all "template" None soup) as [|tpl [|]] eqn:Et;
    try done.
  rewrite (compile_with_template _ _ _ _ _ _ _ Et), compile_from_run in Hrun.
  destruct (attributes_of soup) as [e|attributes] eqn:Ha; [done|].
  destruct (parse_properties src !! "name") as [name|]; [|done].
  destruct (attributes_of_spec _ _ Ha) as [Hattr _].
  pose proof (attributes_empty_iff _ _ Ha) as Hiff.
  exists tpl, attributes, name.
  destruct (nonempty (gather_style soup)).
  - destruct (sassc_result (gather_style soup)) as [e|css]; [done|].
    apply (emit_members_success _ _ _ _ Ha) in Hrun as (Hg & Hs & ->).
    exists (style_text css). repeat split; try done; [by exists css|..].
    + apply Hiff.
    + apply Hiff.
    + simpl. by rewrite !append_assoc.
  - apply (emit_members_success _ _ _ _ Ha) in Hrun as (Hg & Hs & ->).
    exists EmptyString. repeat split; try done.
    + apply Hiff.
    + apply Hiff.
    + simpl. by rewrite !append_assoc.
Qed.

(** X19.  A getter script without [name] is found out late.  In a run
    that gets through the constructor, the first getter script having
    no [name] stops the run on [KeyError] for that key after the
    opening, the constructor, the observed attributes and the two
    lifecycle hooks were printed; the class is left unfinished. *)
Theorem compile_getter_without_name (src : string) (soup tpl g : node)
    (rest : list node) (attributes : gset string) (name : string)
    (w : world) :
  Soup.find_all "template" None soup = [tpl] ->
  attributes_of soup = inr attributes ->
  parse_properties src !! "name" = Some name ->
  (nonempty (gather_style soup) = true ->
   exists css, sassc_result (gather_style soup) = inr css) ->
  scripts "getter" soup = g :: rest ->
  Soup.get "name" (Soup.attrs_of g) = None ->
  fst (compile src soup w) = inl (KeyError "name") /\
  exists style_out,
    stdout (snd (compile src soup w)) =
      stdout w +:+ opening_text name +:+ style_out +:+
      constructor_rest decode_contents tpl soup attributes +:+
      hook_text "connectedCallback(){" "connected" soup +:+
      hook_text "disconnectedCallback(){" "disconnected" soup.
Proof.
  intros Ht Ha Hn Hstyle Hg Hmissing.
  rewrite (compile_with_template _ _ _ _ _ _ _ Ht), compile_from_run, Ha, Hn.
  assert (forall w1,
    emit_members attributes soup w1 =
    (inl (KeyError "name"),
     emit w1 (hook_text "connectedCallback(){" "connected" soup +:+
              hook_text "disconnectedCallback(){" "disconnected" soup)))
    as Hmembers.
  { intros w1. unfold emit_members.
    rewrite (writes_run _ _ _ _
               (hook_writes "connectedCallback(){" "connected" soup)).
    rewrite (writes_run _ _ _ _
               (hook_writes "disconnectedCallback(){" "disconnected" soup)).
    rewrite run_bind, Hg, (accessor_loop_missing _ _ _ _ _ Hmissing).
    by rewrite emit_emit. }
  destruct (nonempty (gather_style soup)).
  - destruct (Hstyle eq_refl) as [css ->]. rewrite Hmembers.
    split; [done|]. exists (style_text css). simpl.
    by rewrite !append_assoc.
  - rewrite Hmembers. split; [done|]. exists EmptyString. simpl.
    by rewrite !append_assoc.
Qed.

End MembersProperties.

(** ** The further statements at sample documents *)

Lemma compile_missing_name_witness :
  compile Sample.text_contents false Sample.cannot_start EmptyString
    (Sample.document []) Sample.start =
  (inl (KeyError "name"), Sample.start).
Proof.
  apply (compile_missing_name Sample.text_contents false Sample.cannot_start
           EmptyString (Sample.document []) Sample.template ∅ Sample.start);
    vm_compute; reflexivity.
Defined.

Lemma compile_attr_script_without_attr_witness :
  compile Sample.text_contents false Sample.cannot_start Sample.src
    (Sample.document
       [Sample.attr_script "value" "a();"; SampleRun.bare_script "attr"])
    Sample.start =
  (inl (KeyError "attr"), Sample.start).
Proof.
  apply (compile_attr_script_without_attr Sample.text_contents false
           Sample.cannot_start Sample.src
           (Sample.document
              [Sample.attr_script "value" "a();"; SampleRun.bare_script "attr"])
           Sample.template Sample.start).
  - reflexivity.
  - apply Forall_cons. split; [right; by exists "value"|].
    apply Forall_cons. split; [by left|]. apply Forall_nil_2.
  - apply Exists_cons_tl, Exists_cons_hd. reflexivity.
Defined.

Lemma compile_getter_without_name_witness :
  fst (compile Sample.text_contents false Sample.cannot_start Sample.src
         (Sample.document
            [SampleRun.bare_script "connected"; SampleRun.bare_script "getter"])
         Sample.start) = inl (KeyError "name") /\
  exists style_out,
    stdout (snd (compile Sample.text_contents false Sample.cannot_start
                   Sample.src
                   (Sample.document
                      [SampleRun.bare_script "connected";
                       SampleRun.bare_script "getter"])
                   Sample.start)) =
      stdout Sample.start +:+ opening_text "my-widget" +:+ style_out +:+
      constructor_rest Sample.text_contents Sample.template
        (Sample.document
           [SampleRun.bare_script "connected"; SampleRun.bare_script "getter"])
        ∅ +:+
      hook_text Sample.text_contents "connectedCallback(){" "connected"
        (Sample.document
           [SampleRun.bare_script "connected"; SampleRun.bare_script "getter"])
      +:+
      hook_text Sample.text_contents "disconnectedCallback(){" "disconnected"
        (Sample.document
           [SampleRun.bare_script "connected"; SampleRun.bare_script "getter"]).
Proof.
  apply (compile_getter_without_name Sample.text_contents false
           Sample.cannot_start Sample.src
           (Sample.document
              [SampleRun.bare_script "connected";
               SampleRun.bare_script "getter"])
           Sample.template (SampleRun.bare_script "getter") [] ∅ "my-widget"
           Sample.start).
  - reflexivity.
  - vm_compute. reflexivity.
  - vm_compute. reflexivity.
  - vm_compute. discriminate.
  - reflexivity.
  - reflexivity.
Defined.

(** The whole output for a sample with one hook, one getter and two
    attr scripts of the same name. *)
Example compile_sample_output :
  compile Sample.text_contents false Sample.cannot_start Sample.src
    (Sample.document
       [SampleRun.bare_script "connected";
        SampleRun.getter_script "size" "return 1;";
        Sample.attr_script "value" "a();"; Sample.attr_script "value" "b();"])
    Sample.start =
  (inr tt,
   {| stdout :=
        "customElements.define('my-widget',class extends HTMLElement{" +:+
        "constructor(){super();" +:+
        "this.shadow = this.attachShadow({'mode':'open'});" +:+
        "this.shadow.append($e('span',{},[]));}" +:+
        "static get observedAttributes(){return[" +:+ chr DQUOTE +:+
        "value" +:+ chr DQUOTE +:+ "];}" +:+
        "connectedCallback(){x();}" +:+
        "get size(){return 1;}" +:+
        "attributeChangedCallback(__attrName, oldValue, value){" +:+
        "if (__attrName === 'value'){a();}" +:+
        "if (__attrName === 'value'){b();}" +:+
        "}});";
      sassc_calls := [] |}).
Proof. vm_compute. reflexivity. Qed.

Lemma compile_full_output_witness :
  exists tpl attributes name style_out,
    Soup.find_all "template" None
      (Sample.document
         [SampleRun.bare_script "connected";
          SampleRun.getter_script "size" "return 1;";
          Sample.attr_script "value" "a();"]) = [tpl] /\
    attributes_of
      (Sample.document
         [SampleRun.bare_script "connected";
          SampleRun.getter_script "size" "return 1;";
          Sample.attr_script "value" "a();"]) = inr attributes /\
    parse_properties Sample.src !! "name" = Some name /\
    (if nonempty (gather_style Sample.text_contents
                    (Sample.document
                       [SampleRun.bare_script "connected";
                        SampleRun.getter_script "size" "return 1;";
                        Sample.attr_script "value" "a();"]))
     then exists css,
            sassc_result false Sample.cannot_start
              (gather_style Sample.text_contents
                 (Sample.document
                    [SampleRun.bare_script "connected";
                     SampleRun.getter_script "size" "return 1;";
                     Sample.attr_script "value" "a();"])) = inr css /\
            style_out = style_text css
     else style_out = EmptyString) /\
    Forall (has_string "name")
      (scripts "getter"
         (Sample.document
            [SampleRun.bare_script "connected";
             SampleRun.getter_script "size" "return 1;";
             Sample.attr_script "value" "a();"])) /\
    Forall (has_string "name")
      (scripts "setter"
         (Sample.document
            [SampleRun.bare_script "connected";
             SampleRun.getter_script "size" "return 1;";
             Sample.attr_script "value" "a();"])) /\
    Forall (has_string "attr")
      (scripts "attr"
         (Sample.document
            [SampleRun.bare_script "connected";
             SampleRun.getter_script "size" "return 1;";
             Sample.attr_script "value" "a();"])) /\
    (attributes = ∅ <->
     scripts "attr"
       (Sample.document
          [SampleRun.bare_script "connected";
           SampleRun.getter_script "size" "return 1;";
           Sample.attr_script "value" "a();"]) = []) /\
    stdout (snd (compile Sample.text_contents false Sample.cannot_start
                   Sample.src
                   (Sample.document
                      [SampleRun.bare_script "connected";
                       SampleRun.getter_script "size" "return 1;";
                       Sample.attr_script "value" "a();"])
                   Sample.start)) =
      stdout Sample.start +:+ opening_text name +:+ style_out +:+
      constructor_rest Sample.text_contents tpl
        (Sample.document
           [SampleRun.bare_script "connected";
            SampleRun.getter_script "size" "return 1;";
            Sample.attr_script "value" "a();"]) attributes +:+
      members_text Sample.text_contents
        (Sample.document
           [SampleRun.bare_script "connected";
            SampleRun.getter_script "size" "return 1;";
            Sample.attr_script "value" "a();"]).
Proof.
  apply (compile_full_output Sample.text_contents false Sample.cannot_start
           Sample.src
           (Sample.document
              [SampleRun.bare_script "connected";
               SampleRun.getter_script "size" "return 1;";
               Sample.attr_script "value" "a();"])
           Sample.start).
  vm_compute. reflexivity.
Defined.

(** ** The list of observed attributes, continued *)

Lemma all_printable_append (a b : string) :
  all_printable (a +:+ b) = all_printable a && all_printable b.
Proof.
  induction a as [|c a IH]; [done|]. rewrite append_cons. cbn [all_printable].
  by rewrite IH, andb_assoc.
Qed.

Lemma encode_char_printable (c : ascii) :
  all_printable (Json.encode_char c) = true.
Proof. destruct c as [[] [] [] [] [] [] [] []]; vm_compute; reflexivity. Qed.

Lemma encode_str_printable (s : string) :
  all_printable (Json.encode_str s) = true.
Proof.
  unfold Json.encode_str. rewrite !all_printable_append.
  assert (all_printable (Json.encode_chars s) = true) as ->; [|done].
  induction s as [|c s IH]; [done|]. cbn [Json.encode_chars].
  by rewrite all_printable_append, encode_char_printable, IH.
Qed.

Lemma join_items_printable (l : list string) :
  Forall (fun x => all_printable x = true) l ->
  all_printable (Json.join_items l) = true.
Proof.
  induction 1 as [|x l Hx Hl IH]; [done|].
  destruct l as [|y l]; [done|].
  change (Json.join_items (x :: y :: l))
    with (x +:+ ", " +:+ Json.join_items (y :: l)).
  by rewrite !all_printable_append, Hx, IH.
Qed.

(** X20.  The accessor of the observed attributes is printed in
    printable ASCII only, whatever characters the attribute names
    contain. *)
Theorem observed_text_printable (names : list string) :
  all_printable (observed_text names) = true.
Proof.
  unfold observed_text, Json.dumps. rewrite !all_printable_append.
  rewrite join_items_printable; [done|].
  apply Forall_fmap, Forall_forall. intros s _. apply encode_str_printable.
Qed.
